(** * aws-vault: the four command handlers of [main.go]

    The program is a thin command-line wrapper: every handler reads its
    flags, talks to the local file system and to one AWS client, prints
    one status line and either returns or calls [os.Exit]; the one
    unchecked dereference, of the ARN of a created secret, can panic.

    The embedding keeps that shape.  A handler is a computation in a small
    command monad that threads the outside world, appends every external
    call (with the answer it received) to a trace, and can stop early
    through [return], [os.Exit] or a panic.  The outside world is an interface
    ([Platform]); the handlers are generic in it, and a simulated cloud
    ([Sim]) instantiates it for the statements that need a concrete
    store. *)

From Stdlib Require Import ZArith Lia Bool Ascii String.
From Stdlib.Strings Require Import Byte.
From stdpp Require Import base gmap strings list.

Local Open Scope Z_scope.

(** ** Go values *)

(** [[]byte]. *)
Abbreviation bytes := (list byte).

(** A Go [error] value that is not [nil]; [Error] is its [Error()] method.
    A possibly-[nil] error is an [option error]. *)
Record error := mkError { Error : string }.

(** The Go idiom [(value, err)]: a value when [err == nil], the error
    otherwise. *)
Inductive Result (A : Type) :=
| Ok (a : A)
| Fail (err : error).
Arguments Ok {A} a.
Arguments Fail {A} err.

(** [time.Duration], in nanoseconds. *)
Definition Duration := Z.
Definition time_Second : Duration := 1000000000.

(** [context.Context] as far as the program builds one. *)
Inductive Context :=
| context_Background
| context_WithTimeout (parent : Context) (timeout : Duration).

(** [aws.Config]: what [config.LoadDefaultConfig] resolves; the clients
    made by [NewFromConfig] carry nothing else. *)
Record Config := mkConfig { Region : string }.

(** [*secretsmanager.CreateSecretOutput] as far as the program looks at
    it: the field [ARN], a [*string], which is [nil] when the answer
    carries no ARN. *)
Record CreateSecretOutput := mkCreateSecretOutput { ARN : option string }.

(** [resp.Body] of a [GetObject] answer: a stream that [ioutil.ReadAll]
    either drains completely or fails on. *)
Definition Body := Result bytes.
Definition ioutil_ReadAll (b : Body) : Result bytes := b.

(** [string(data)] and [[]byte(s)]: a Go string is its bytes. *)
Definition string_of_bytes (data : bytes) : string :=
  String.string_of_list_byte data.
Definition bytes_of_string (s : string) : bytes :=
  String.list_byte_of_string s.

(** ** [strings.Contains] *)

(** [strings.HasPrefix s p]. *)
Fixpoint HasPrefix (s p : string) {struct p} : bool :=
  match p, s with
  | EmptyString, _ => true
  | String c p', String d s' => if Ascii.eqb c d then HasPrefix s' p' else false
  | String _ _, EmptyString => false
  end.

(** [strings.Contains s substr]: [substr] occurs somewhere within [s]. *)
Fixpoint Contains (s substr : string) : bool :=
  HasPrefix s substr ||
  match s with
  | EmptyString => false
  | String _ s' => Contains s' substr
  end.

(** [fmt.Println(a, b, ...)] writes its operands separated by single
    spaces; the line is kept without its final newline. *)
Definition Sprintln (operands : list string) : string :=
  String.concat " " operands.

(** ** The trace of a run *)

(** One entry per external call, in program order, with the answer the
    call received. *)
Inductive Event :=
| EvPrintln (line : string)
| EvReadFile (path : string) (r : Result bytes)
| EvWriteFile (path : string) (data : bytes) (perm : Z) (r : option error)
| EvLoadDefaultConfig (region : option string) (r : Result Config)
| EvPutObject (Bucket Key : string) (Body_ : bytes) (r : option error)
| EvGetObject (Bucket Key : string) (r : Result Body)
| EvDescribeSecret (SecretId : string) (r : option error)
| EvUpdateSecret (SecretId Description SecretString : string) (r : option error)
| EvCreateSecret (Name Description SecretString : string)
                 (r : Result CreateSecretOutput).

(** ** The outside world *)

(** Everything the handlers call that is not in [main.go].  Each operation
    sees the current world and may change it; the answers are the
    interface's business. *)
Class Platform (W : Type) := {
  (* io/ioutil *)
  sys_ReadFile : string → W → Result bytes * W;
  sys_WriteFile : string → bytes → Z → W → option error * W;
  (* aws-sdk-go-v2/config *)
  sys_LoadDefaultConfig : Context → option string → W → Result Config * W;
  (* aws-sdk-go-v2/service/s3 *)
  sys_PutObject : Config → Context → string → string → bytes → W → option error * W;
  sys_GetObject : Config → Context → string → string → W → Result Body * W;
  (* aws-sdk-go-v2/service/secretsmanager *)
  sys_DescribeSecret : Config → Context → string → W → option error * W;
  sys_UpdateSecret : Config → Context → string → string → string → W → option error * W;
  sys_CreateSecret : Config → Context → string → string → string → W →
                     Result CreateSecretOutput * W;
}.

(** ** The command monad *)

(** How a piece of a handler ends: it falls through to the next statement,
    it executes [return], it calls [os.Exit], or it panics (the only
    panic the handlers can raise themselves is a [nil] dereference). *)
Inductive Outcome (A : Type) :=
| Next (a : A)
| Returned
| Exited (code : Z)
| Panicked.
Arguments Next {A} a.
Arguments Returned {A}.
Arguments Exited {A} code.
Arguments Panicked {A}.

Record State (W : Type) := mkState { world : W; trace : list Event }.
Arguments mkState {W} world trace.
Arguments world {W} s.
Arguments trace {W} s.

Definition Cmd (W A : Type) : Type := State W → Outcome A * State W.

Definition cmd_ret {W A} (a : A) : Cmd W A := λ s, (Next a, s).

Definition cmd_bind {W A B} (f : A → Cmd W B) (c : Cmd W A) : Cmd W B :=
  λ s, match c s with
       | (Next a, s') => f a s'
       | (Returned, s') => (Returned, s')
       | (Exited code, s') => (Exited code, s')
       | (Panicked, s') => (Panicked, s')
       end.

#[export] Instance Cmd_ret {W} : MRet (Cmd W) := @cmd_ret W.
#[export] Instance Cmd_bind {W} : MBind (Cmd W) := @cmd_bind W.

(** The empty statement, Go's [return] and [os.Exit]. *)
Definition skip {W} : Cmd W unit := cmd_ret tt.
Definition return_ {W A} : Cmd W A := λ s, (Returned, s).
Definition os_Exit {W A} (code : Z) : Cmd W A := λ s, (Exited code, s).

(** A run-time panic, and the dereference [*p] of a pointer that may be
    [nil]. *)
Definition panic {W A} : Cmd W A := λ s, (Panicked, s).
Definition deref {W A} (p : option A) : Cmd W A :=
  match p with
  | Some a => cmd_ret a
  | None => panic
  end.

(** An external call: ask the platform, log the call with its answer. *)
Definition call {W A} (op : W → A * W) (ev : A → Event) : Cmd W A :=
  λ s, let '(r, w') := op (world s) in
       (Next r, mkState w' (trace s ++ [ev r])).

Definition fmt_Println {W} (operands : list string) : Cmd W unit :=
  λ s, (Next tt, mkState (world s) (trace s ++ [EvPrintln (Sprintln operands)])).

(** A handler started in world [w] with an empty trace. *)
Definition run {W A} (c : Cmd W A) (w : W) : Outcome A * State W :=
  c (mkState w []).

(** The exit status of the process whose handler ended with [o].  The
    handlers are cobra [Run] functions, which cannot report an error: when
    one returns, [rootCmd.Execute] returns [nil], [main] returns and the
    status is 0; [os.Exit(code)] ends the process with [code]; a panic
    that nothing recovers ends it with status 2, after the Go runtime has
    written its report to standard error. *)
Definition exit_status {A} (o : Outcome A) : Z :=
  match o with
  | Next _ | Returned => 0
  | Exited code => code
  | Panicked => 2
  end.

(** Observations on a trace. *)
Definition is_create (ev : Event) : bool :=
  match ev with EvCreateSecret _ _ _ _ => true | _ => false end.
Definition is_update (ev : Event) : bool :=
  match ev with EvUpdateSecret _ _ _ _ => true | _ => false end.
Definition is_describe (ev : Event) : bool :=
  match ev with EvDescribeSecret _ _ => true | _ => false end.
(** The calls that go over the network. *)
Definition is_network (ev : Event) : bool :=
  match ev with
  | EvPutObject _ _ _ _ | EvGetObject _ _ _
  | EvDescribeSecret _ _ | EvUpdateSecret _ _ _ _ | EvCreateSecret _ _ _ _ => true
  | _ => false
  end.
(** The calls that change something: a stored object, a secret or a local
    file. *)
Definition is_mutation (ev : Event) : bool :=
  match ev with
  | EvPutObject _ _ _ _ | EvWriteFile _ _ _ _
  | EvUpdateSecret _ _ _ _ | EvCreateSecret _ _ _ _ => true
  | _ => false
  end.

Definition count (p : Event → bool) (t : list Event) : nat :=
  length (List.filter p t).

(** The lines written to standard output. *)
Definition stdout (t : list Event) : list string :=
  omap (λ ev, match ev with EvPrintln l => Some l | _ => None end) t.

(** ** Flags

    [cmd.Flags().GetString(...)] and friends read the parsed command line;
    a record per flag set stands for it.  The defaults are those registered
    in [init]. *)

(** The flags of [upload] and of [download]. *)
Record TransferFlags := mkTransferFlags {
  flag_bucket : string;
  flag_file : string;
  flag_subdirectory : string;
}.

(** The flags of [update-secret]. *)
Record UpdateSecretFlags := mkUpdateSecretFlags {
  flag_name : string;
  flag_region : string;
  flag_description : string;
  flag_json_file : string;
  flag_timeout : Duration;
  flag_update : bool;
}.

(** The flags of [create-secret]: [init] registers no [update] flag on
    this command. *)
Record CreateSecretFlags := mkCreateSecretFlags {
  cflag_name : string;
  cflag_region : string;
  cflag_description : string;
  cflag_json_file : string;
  cflag_timeout : Duration;
}.

Definition default_TransferFlags : TransferFlags :=
  mkTransferFlags "" "" "".
Definition default_UpdateSecretFlags : UpdateSecretFlags :=
  mkUpdateSecretFlags "" "" "" "" (30 * time_Second) false.
Definition default_CreateSecretFlags : CreateSecretFlags :=
  mkCreateSecretFlags "" "" "" "" (30 * time_Second).

(** The file mode [0644] (octal) that [download] writes with. *)
Definition perm_0644 : Z := 6 * 64 + 4 * 8 + 4.

(** The messages of the two parameter checks. *)
Definition usage_transfer : string :=
  "Please provide all required input parameters: --bucket and --file".
Definition usage_secret : string :=
  "Please provide all required input parameters: --name, --region, --description, and --json-file".

(** ** The handlers *)

Section Handlers.
Context {W : Type} `{Platform W}.

(** The external calls, logged. *)
Definition ioutil_ReadFile (path : string) : Cmd W (Result bytes) :=
  call (sys_ReadFile path) (EvReadFile path).
Definition ioutil_WriteFile (path : string) (data : bytes) (perm : Z)
  : Cmd W (option error) :=
  call (sys_WriteFile path data perm) (EvWriteFile path data perm).
Definition config_LoadDefaultConfig (ctx : Context) (region : option string)
  : Cmd W (Result Config) :=
  call (sys_LoadDefaultConfig ctx region) (EvLoadDefaultConfig region).
Definition s3_PutObject (client : Config) (ctx : Context)
    (Bucket Key : string) (Body_ : bytes) : Cmd W (option error) :=
  call (sys_PutObject client ctx Bucket Key Body_) (EvPutObject Bucket Key Body_).
Definition s3_GetObject (client : Config) (ctx : Context)
    (Bucket Key : string) : Cmd W (Result Body) :=
  call (sys_GetObject client ctx Bucket Key) (EvGetObject Bucket Key).
Definition secretsmanager_DescribeSecret (client : Config) (ctx : Context)
    (SecretId : string) : Cmd W (option error) :=
  call (sys_DescribeSecret client ctx SecretId) (EvDescribeSecret SecretId).
Definition secretsmanager_UpdateSecret (client : Config) (ctx : Context)
    (SecretId Description SecretString : string) : Cmd W (option error) :=
  call (sys_UpdateSecret client ctx SecretId Description SecretString)
       (EvUpdateSecret SecretId Description SecretString).
Definition secretsmanager_CreateSecret (client : Config) (ctx : Context)
    (Name Description SecretString : string) : Cmd W (Result CreateSecretOutput) :=
  call (sys_CreateSecret client ctx Name Description SecretString)
       (EvCreateSecret Name Description SecretString).

(** [readSecretFromJSON]: Go's pair [(string, error)]. *)
Definition readSecretFromJSON (filePath : string) : Cmd W (string * option error) :=
  r ← ioutil_ReadFile filePath;
  match r with
  | Fail err => mret ("", Some err)
  | Ok data => mret (string_of_bytes data, None)
  end.

(** [uploadCmd.Run]. *)
Definition uploadCmd (flags : TransferFlags) : Cmd W unit :=
  let bucketName := flag_bucket flags in
  let filePath := flag_file flags in
  let subdirectory := flag_subdirectory flags in
  (if String.eqb bucketName "" || String.eqb filePath "" then
     fmt_Println [usage_transfer];; os_Exit 1
   else skip);;
  r ← config_LoadDefaultConfig context_Background None;
  cfg ← match r with
        | Fail err => fmt_Println ["Error loading AWS SDK config:"; Error err];; os_Exit 1
        | Ok cfg => mret cfg
        end;
  let client := cfg in
  r ← ioutil_ReadFile filePath;
  data ← match r with
         | Fail err => fmt_Println ["Error reading file:"; Error err];; os_Exit 1
         | Ok data => mret data
         end;
  err ← s3_PutObject client context_Background
          bucketName (subdirectory +:+ "/" +:+ filePath) data;
  match err with
  | Some err => fmt_Println ["Error uploading file to S3:"; Error err];; os_Exit 1
  | None => skip
  end;;
  fmt_Println ["File uploaded to S3 successfully."].

(** [downloadCmd.Run]. *)
Definition downloadCmd (flags : TransferFlags) : Cmd W unit :=
  let bucketName := flag_bucket flags in
  let filePath := flag_file flags in
  let subdirectory := flag_subdirectory flags in
  (if String.eqb bucketName "" || String.eqb filePath "" then
     fmt_Println [usage_transfer];; os_Exit 1
   else skip);;
  r ← config_LoadDefaultConfig context_Background None;
  cfg ← match r with
        | Fail err => fmt_Println ["Error loading AWS SDK config:"; Error err];; os_Exit 1
        | Ok cfg => mret cfg
        end;
  let client := cfg in
  r ← s3_GetObject client context_Background
        bucketName (subdirectory +:+ "/" +:+ filePath);
  resp ← match r with
         | Fail err => fmt_Println ["Error downloading file from S3:"; Error err];; os_Exit 1
         | Ok resp => mret resp
         end;
  data ← match ioutil_ReadAll resp with
         | Fail err => fmt_Println ["Error reading file contents:"; Error err];; os_Exit 1
         | Ok data => mret data
         end;
  err ← ioutil_WriteFile filePath data perm_0644;
  match err with
  | Some err => fmt_Println ["Error writing file to disk:"; Error err];; os_Exit 1
  | None => skip
  end;;
  fmt_Println ["File downloaded from S3 successfully."].

(** [updateSecretCmd.Run]. *)
Definition updateSecretCmd (flags : UpdateSecretFlags) : Cmd W unit :=
  let secretName := flag_name flags in
  let region := flag_region flags in
  let description := flag_description flags in
  let jsonFilePath := flag_json_file flags in
  let timeout := flag_timeout flags in
  let updateFlag := flag_update flags in
  (if String.eqb secretName "" || String.eqb region "" ||
      String.eqb description "" || String.eqb jsonFilePath "" then
     fmt_Println [usage_secret];; os_Exit 1
   else skip);;
  '(secretValue, err) ← readSecretFromJSON jsonFilePath;
  match err with
  | Some err =>
      fmt_Println ["Error reading secret value from JSON file:"; Error err];; os_Exit 1
  | None => skip
  end;;
  let ctx := context_WithTimeout context_Background timeout in
  r ← config_LoadDefaultConfig ctx (Some region);
  cfg ← match r with
        | Fail err => fmt_Println ["Error loading AWS SDK config:"; Error err];; os_Exit 1
        | Ok cfg => mret cfg
        end;
  let client := cfg in
  err ← secretsmanager_DescribeSecret client ctx secretName;
  match err with
  | Some err =>
      if Contains (Error err) "ResourceNotFoundException" then
        fmt_Println ["Secret does not exist. Proceeding with creation..."]
      else
        (fmt_Println ["Error describing secret:"; Error err];; os_Exit 1)
  | None =>
      if negb updateFlag then
        fmt_Println ["Secret already exists and update flag not set. Exiting."];;
        return_
      else skip
  end;;
  (if updateFlag then
     err ← secretsmanager_UpdateSecret client ctx secretName description secretValue;
     match err with
     | Some err => fmt_Println ["Error updating secret:"; Error err];; os_Exit 1
     | None => skip
     end;;
     fmt_Println ["Successfully updated secret."];;
     return_
   else skip);;
  r ← secretsmanager_CreateSecret client ctx secretName description secretValue;
  createOutput ← match r with
                 | Fail err => fmt_Println ["Error creating secret:"; Error err];; os_Exit 1
                 | Ok createOutput => mret createOutput
                 end;
  createOutput_ARN ← deref (ARN createOutput);
  fmt_Println ["Successfully created, Secret ARN:"; createOutput_ARN].

(** [createSecretCmd.Run]. *)
Definition createSecretCmd (flags : CreateSecretFlags) : Cmd W unit :=
  let secretName := cflag_name flags in
  let region := cflag_region flags in
  let description := cflag_description flags in
  let jsonFilePath := cflag_json_file flags in
  let timeout := cflag_timeout flags in
  (if String.eqb secretName "" || String.eqb region "" ||
      String.eqb description "" || String.eqb jsonFilePath "" then
     fmt_Println [usage_secret];; os_Exit 1
   else skip);;
  '(secretValue, err) ← readSecretFromJSON jsonFilePath;
  match err with
  | Some err =>
      fmt_Println ["Error reading secret value from JSON file:"; Error err];; os_Exit 1
  | None => skip
  end;;
  let ctx := context_WithTimeout context_Background timeout in
  r ← config_LoadDefaultConfig ctx (Some region);
  cfg ← match r with
        | Fail err => fmt_Println ["Error loading AWS SDK config:"; Error err];; os_Exit 1
        | Ok cfg => mret cfg
        end;
  let client := cfg in
  r ← secretsmanager_CreateSecret client ctx secretName description secretValue;
  createOutput ← match r with
                 | Fail err => fmt_Println ["Error creating secret:"; Error err];; os_Exit 1
                 | Ok createOutput => mret createOutput
                 end;
  createOutput_ARN ← deref (ARN createOutput);
  fmt_Println ["Successfully created, Secret ARN:"; createOutput_ARN].
End Handlers.

(** What a run shows from outside. *)
Definition run_trace {W A} (c : Cmd W A) (w : W) : list Event := trace (run c w).2.
Definition run_status {W A} (c : Cmd W A) (w : W) : Z := exit_status (run c w).1.
Definition run_world {W A} (c : Cmd W A) (w : W) : W := world (run c w).2.

(** ** Observations on a run *)

(** Whether a run got as far as a loaded SDK configuration. *)
Definition config_loaded (t : list Event) : bool :=
  existsb (λ ev, match ev with EvLoadDefaultConfig _ (Ok _) => true | _ => false end) t.


(** The bucket and key of every request that a run sent to the object
    store. *)
Definition object_addresses (t : list Event) : list (string * string) :=
  omap (λ ev, match ev with
              | EvPutObject bucket key _ _ | EvGetObject bucket key _ => Some (bucket, key)
              | _ => None
              end) t.

(** ** The paths through [updateSecretCmd] *)

(** Whether one of the four required flags of the secret commands is the
    empty string. *)
Definition secret_flag_missing (name region description jsonFile : string) : bool :=
  String.eqb name "" || String.eqb region "" ||
  String.eqb description "" || String.eqb jsonFile "".

(** The answer that the first [DescribeSecret] call of a run received, if
    the run made such a call. *)
Definition describe_answer (t : list Event) : option (option error) :=
  head (omap (λ ev, match ev with EvDescribeSecret _ r => Some r | _ => None end) t).

Section UpdateSecretPaths.
Variable f : UpdateSecretFlags.

Let name := flag_name f.
Let region := flag_region f.
Let description := flag_description f.
Let jsonFile := flag_json_file f.

(** What the trace holds once [DescribeSecret] has answered [d] and the
    handler has not stopped. *)
Definition described (data : bytes) (cfg : Config) (d : option error) : list Event :=
  [EvReadFile jsonFile (Ok data);
   EvLoadDefaultConfig (Some region) (Ok cfg);
   EvDescribeSecret name d] ++
  match d with
  | Some _ => [EvPrintln "Secret does not exist. Proceeding with creation..."]
  | None => []
  end.

(** [DescribeSecret] succeeded, or failed with a message that has the
    marker. *)
Definition passes (d : option error) : Prop :=
  match d with
  | Some err => Contains (Error err) "ResourceNotFoundException" = true
  | None => True
  end.

(** Every way a run of the handler can go: how it ends and what it
    leaves in the trace. *)
Inductive UpdateSecretPath : Outcome unit → list Event → Prop :=
| path_usage :
    secret_flag_missing name region description jsonFile = true →
    UpdateSecretPath (Exited 1) [EvPrintln usage_secret]
| path_read_failed err :
    UpdateSecretPath (Exited 1)
      [EvReadFile jsonFile (Fail err);
       EvPrintln ("Error reading secret value from JSON file: " +:+ Error err)]
| path_config_failed data err :
    UpdateSecretPath (Exited 1)
      [EvReadFile jsonFile (Ok data);
       EvLoadDefaultConfig (Some region) (Fail err);
       EvPrintln ("Error loading AWS SDK config: " +:+ Error err)]
| path_describe_failed data cfg err :
    Contains (Error err) "ResourceNotFoundException" = false →
    UpdateSecretPath (Exited 1)
      [EvReadFile jsonFile (Ok data);
       EvLoadDefaultConfig (Some region) (Ok cfg);
       EvDescribeSecret name (Some err);
       EvPrintln ("Error describing secret: " +:+ Error err)]
| path_already_exists data cfg :
    flag_update f = false →
    UpdateSecretPath Returned
      (described data cfg None ++
       [EvPrintln "Secret already exists and update flag not set. Exiting."])
| path_update_failed data cfg d err :
    flag_update f = true → passes d →
    UpdateSecretPath (Exited 1)
      (described data cfg d ++
       [EvUpdateSecret name description (string_of_bytes data) (Some err);
        EvPrintln ("Error updating secret: " +:+ Error err)])
| path_updated data cfg d :
    flag_update f = true → passes d →
    UpdateSecretPath Returned
      (described data cfg d ++
       [EvUpdateSecret name description (string_of_bytes data) None;
        EvPrintln "Successfully updated secret."])
| path_create_failed data cfg e err :
    flag_update f = false → passes (Some e) →
    UpdateSecretPath (Exited 1)
      (described data cfg (Some e) ++
       [EvCreateSecret name description (string_of_bytes data) (Fail err);
        EvPrintln ("Error creating secret: " +:+ Error err)])
| path_created data cfg e arn :
    flag_update f = false → passes (Some e) →
    UpdateSecretPath (Next tt)
      (described data cfg (Some e) ++
       [EvCreateSecret name description (string_of_bytes data)
                       (Ok (mkCreateSecretOutput (Some arn)));
        EvPrintln ("Successfully created, Secret ARN: " +:+ arn)])
| path_created_without_arn data cfg e :
    flag_update f = false → passes (Some e) →
    UpdateSecretPath Panicked
      (described data cfg (Some e) ++
       [EvCreateSecret name description (string_of_bytes data)
                       (Ok (mkCreateSecretOutput None))]).
End UpdateSecretPaths.

(** ** A simulated cloud

    A reference model of the collaborators of [main.go], none of which is
    part of the repository: a local file system, an object store addressed
    by bucket and key, and a secrets service addressed by name.  A write
    is visible to every later read of the same address; [outage], when
    set, makes every network call fail with that error. *)
Module Sim.
Record World := mkWorld {
  fs : gmap string bytes;
  s3 : gmap (string * string) bytes;
  secrets : gmap string (string * string);
  outage : option error;
}.

Definition set_fs (w : World) (m : gmap string bytes) : World :=
  mkWorld m (s3 w) (secrets w) (outage w).
Definition set_s3 (w : World) (m : gmap (string * string) bytes) : World :=
  mkWorld (fs w) m (secrets w) (outage w).
Definition set_secrets (w : World) (m : gmap string (string * string)) : World :=
  mkWorld (fs w) (s3 w) m (outage w).

Definition NoSuchFile (path : string) : error :=
  mkError ("open " +:+ path +:+ ": no such file or directory").
Definition NoSuchKey : error :=
  mkError "operation error S3: GetObject, NoSuchKey: The specified key does not exist.".
Definition ResourceNotFound : error :=
  mkError "operation error Secrets Manager: ResourceNotFoundException: Secrets Manager can't find the specified secret.".
Definition ResourceExists : error :=
  mkError "operation error Secrets Manager: ResourceExistsException: The secret already exists.".

Definition arn_of (region name : string) : string :=
  "arn:aws:secretsmanager:" +:+ region +:+ ":secret:" +:+ name.

Definition ReadFile (path : string) (w : World) : Result bytes * World :=
  match fs w !! path with
  | Some data => (Ok data, w)
  | None => (Fail (NoSuchFile path), w)
  end.

Definition WriteFile (path : string) (data : bytes) (perm : Z) (w : World)
  : option error * World :=
  (None, set_fs w (<[path := data]> (fs w))).

Definition LoadDefaultConfig (ctx : Context) (region : option string) (w : World)
  : Result Config * World :=
  (Ok (mkConfig (default "us-east-1" region)), w).

Definition PutObject (client : Config) (ctx : Context) (bucket key : string)
    (body : bytes) (w : World) : option error * World :=
  match outage w with
  | Some err => (Some err, w)
  | None => (None, set_s3 w (<[(bucket, key) := body]> (s3 w)))
  end.

Definition GetObject (client : Config) (ctx : Context) (bucket key : string)
    (w : World) : Result Body * World :=
  match outage w with
  | Some err => (Fail err, w)
  | None =>
      match s3 w !! (bucket, key) with
      | Some data => (Ok (Ok data), w)
      | None => (Fail NoSuchKey, w)
      end
  end.

Definition DescribeSecret (client : Config) (ctx : Context) (name : string)
    (w : World) : option error * World :=
  match outage w with
  | Some err => (Some err, w)
  | None =>
      match secrets w !! name with
      | Some _ => (None, w)
      | None => (Some ResourceNotFound, w)
      end
  end.

Definition UpdateSecret (client : Config) (ctx : Context)
    (name description value : string) (w : World) : option error * World :=
  match outage w with
  | Some err => (Some err, w)
  | None =>
      match secrets w !! name with
      | Some _ => (None, set_secrets w (<[name := (description, value)]> (secrets w)))
      | None => (Some ResourceNotFound, w)
      end
  end.

Definition CreateSecret (client : Config) (ctx : Context)
    (name description value : string) (w : World) : Result CreateSecretOutput * World :=
  match outage w with
  | Some err => (Fail err, w)
  | None =>
      match secrets w !! name with
      | Some _ => (Fail ResourceExists, w)
      | None => (Ok (mkCreateSecretOutput (Some (arn_of (Region client) name))),
                 set_secrets w (<[name := (description, value)]> (secrets w)))
      end
  end.

#[global] Instance platform : Platform World := {|
  sys_ReadFile := ReadFile;
  sys_WriteFile := WriteFile;
  sys_LoadDefaultConfig := LoadDefaultConfig;
  sys_PutObject := PutObject;
  sys_GetObject := GetObject;
  sys_DescribeSecret := DescribeSecret;
  sys_UpdateSecret := UpdateSecret;
  sys_CreateSecret := CreateSecret;
|}.
End Sim.

(** ** Sample invocations *)
Module Sample.
Import Sim.

(** The bytes of a small JSON document with one field, [password],
    whose value is [x]. *)
Definition dquote : string := String (Ascii.ascii_of_nat 34) EmptyString.
Definition secret_json : bytes :=
  bytes_of_string
    ("{" +:+ dquote +:+ "password" +:+ dquote +:+ ":" +:+ dquote +:+ "x" +:+ dquote +:+ "}").

Definition db_pass (update : bool) : UpdateSecretFlags :=
  mkUpdateSecretFlags "db-pass" "us-east-1" "prod db password" "secret.json"
                      (30 * time_Second) update.
Definition db_pass_create : CreateSecretFlags :=
  mkCreateSecretFlags "db-pass" "us-east-1" "prod db password" "secret.json"
                      (30 * time_Second).

(** A machine that holds [secret.json], facing an empty account. *)
Definition fresh : World :=
  mkWorld {[ "secret.json" := secret_json ]} ∅ ∅ None.
(** The same machine when the secret [db-pass] is already stored. *)
Definition stored : World :=
  mkWorld {[ "secret.json" := secret_json ]} ∅
          {[ "db-pass" := ("old description", "old value") ]} None.
(** The same machine while the secrets service answers every call with
    an access error. *)
Definition access_denied : error :=
  mkError "operation error Secrets Manager: AccessDeniedException: not authorized".
Definition denied : World :=
  mkWorld {[ "secret.json" := secret_json ]} ∅ ∅ (Some access_denied).

(** A note to back up, at the prefix [docs] and at the root of the
    bucket. *)
Definition note : bytes := bytes_of_string "remember the milk".
Definition notes : TransferFlags := mkTransferFlags "backups" "notes.txt" "docs".

(** A machine that holds the note, facing an empty bucket; and a machine
    without the note, facing a bucket that has it at the root. *)
Definition laptop : World :=
  mkWorld {[ "notes.txt" := note ]} ∅ ∅ None.
Definition cloud : World :=
  mkWorld ∅ {[ ("backups", "/notes.txt") := note ]} ∅ None.
End Sample.

(** ** The paths through the other handlers *)

(** Whether one of the two required flags of the transfer commands is the
    empty string. *)
Definition transfer_flag_missing (bucketName filePath : string) : bool :=
  String.eqb bucketName "" || String.eqb filePath "".

(** The object key that the transfer commands build from their flags. *)
Definition object_key (f : TransferFlags) : string :=
  flag_subdirectory f +:+ "/" +:+ flag_file f.

(** Every way a run of [uploadCmd] can go. *)
Inductive UploadPath (f : TransferFlags) : Outcome unit → list Event → Prop :=
| upload_usage :
    transfer_flag_missing (flag_bucket f) (flag_file f) = true →
    UploadPath f (Exited 1) [EvPrintln usage_transfer]
| upload_config_failed err :
    UploadPath f (Exited 1)
      [EvLoadDefaultConfig None (Fail err);
       EvPrintln ("Error loading AWS SDK config: " +:+ Error err)]
| upload_read_failed cfg err :
    UploadPath f (Exited 1)
      [EvLoadDefaultConfig None (Ok cfg);
       EvReadFile (flag_file f) (Fail err);
       EvPrintln ("Error reading file: " +:+ Error err)]
| upload_put_failed cfg data err :
    UploadPath f (Exited 1)
      [EvLoadDefaultConfig None (Ok cfg);
       EvReadFile (flag_file f) (Ok data);
       EvPutObject (flag_bucket f) (object_key f) data (Some err);
       EvPrintln ("Error uploading file to S3: " +:+ Error err)]
| upload_done cfg data :
    UploadPath f (Next tt)
      [EvLoadDefaultConfig None (Ok cfg);
       EvReadFile (flag_file f) (Ok data);
       EvPutObject (flag_bucket f) (object_key f) data None;
       EvPrintln "File uploaded to S3 successfully."].

(** Every way a run of [downloadCmd] can go. *)
Inductive DownloadPath (f : TransferFlags) : Outcome unit → list Event → Prop :=
| download_usage :
    transfer_flag_missing (flag_bucket f) (flag_file f) = true →
    DownloadPath f (Exited 1) [EvPrintln usage_transfer]
| download_config_failed err :
    DownloadPath f (Exited 1)
      [EvLoadDefaultConfig None (Fail err);
       EvPrintln ("Error loading AWS SDK config: " +:+ Error err)]
| download_get_failed cfg err :
    DownloadPath f (Exited 1)
      [EvLoadDefaultConfig None (Ok cfg);
       EvGetObject (flag_bucket f) (object_key f) (Fail err);
       EvPrintln ("Error downloading file from S3: " +:+ Error err)]
| download_body_failed cfg err :
    DownloadPath f (Exited 1)
      [EvLoadDefaultConfig None (Ok cfg);
       EvGetObject (flag_bucket f) (object_key f) (Ok (Fail err));
       EvPrintln ("Error reading file contents: " +:+ Error err)]
| download_write_failed cfg data err :
    DownloadPath f (Exited 1)
      [EvLoadDefaultConfig None (Ok cfg);
       EvGetObject (flag_bucket f) (object_key f) (Ok (Ok data));
       EvWriteFile (flag_file f) data perm_0644 (Some err);
       EvPrintln ("Error writing file to disk: " +:+ Error err)]
| download_done cfg data :
    DownloadPath f (Next tt)
      [EvLoadDefaultConfig None (Ok cfg);
       EvGetObject (flag_bucket f) (object_key f) (Ok (Ok data));
       EvWriteFile (flag_file f) data perm_0644 None;
       EvPrintln "File downloaded from S3 successfully."].

(** Every way a run of [createSecretCmd] can go. *)
Inductive CreateSecretPath (f : CreateSecretFlags) : Outcome unit → list Event → Prop :=
| create_usage :
    secret_flag_missing (cflag_name f) (cflag_region f)
                        (cflag_description f) (cflag_json_file f) = true →
    CreateSecretPath f (Exited 1) [EvPrintln usage_secret]
| create_read_failed err :
    CreateSecretPath f (Exited 1)
      [EvReadFile (cflag_json_file f) (Fail err);
       EvPrintln ("Error reading secret value from JSON file: " +:+ Error err)]
| create_config_failed data err :
    CreateSecretPath f (Exited 1)
      [EvReadFile (cflag_json_file f) (Ok data);
       EvLoadDefaultConfig (Some (cflag_region f)) (Fail err);
       EvPrintln ("Error loading AWS SDK config: " +:+ Error err)]
| create_call_failed data cfg err :
    CreateSecretPath f (Exited 1)
      [EvReadFile (cflag_json_file f) (Ok data);
       EvLoadDefaultConfig (Some (cflag_region f)) (Ok cfg);
       EvCreateSecret (cflag_name f) (cflag_description f) (string_of_bytes data) (Fail err);
       EvPrintln ("Error creating secret: " +:+ Error err)]
| create_done data cfg arn :
    CreateSecretPath f (Next tt)
      [EvReadFile (cflag_json_file f) (Ok data);
       EvLoadDefaultConfig (Some (cflag_region f)) (Ok cfg);
       EvCreateSecret (cflag_name f) (cflag_description f) (string_of_bytes data)
                      (Ok (mkCreateSecretOutput (Some arn)));
       EvPrintln ("Successfully created, Secret ARN: " +:+ arn)]
| create_done_without_arn data cfg :
    CreateSecretPath f Panicked
      [EvReadFile (cflag_json_file f) (Ok data);
       EvLoadDefaultConfig (Some (cflag_region f)) (Ok cfg);
       EvCreateSecret (cflag_name f) (cflag_description f) (string_of_bytes data)
                      (Ok (mkCreateSecretOutput None))].

(** ** More observations on a run *)

(** The calls that touch the local file system, the object store and the
    secrets service. *)
Definition is_file_write (ev : Event) : bool :=
  match ev with EvWriteFile _ _ _ _ => true | _ => false end.
Definition is_file_read (ev : Event) : bool :=
  match ev with EvReadFile _ _ => true | _ => false end.
Definition is_s3 (ev : Event) : bool :=
  match ev with EvPutObject _ _ _ _ | EvGetObject _ _ _ => true | _ => false end.
Definition is_put (ev : Event) : bool :=
  match ev with EvPutObject _ _ _ _ => true | _ => false end.
Definition is_secrets (ev : Event) : bool :=
  match ev with
  | EvDescribeSecret _ _ | EvUpdateSecret _ _ _ _ | EvCreateSecret _ _ _ _ => true
  | _ => false
  end.

(** The regions with which a run asked for the SDK configuration. *)
Definition config_regions (t : list Event) : list (option string) :=
  omap (λ ev, match ev with EvLoadDefaultConfig region _ => Some region | _ => None end) t.


(** A line that reports a failure: the usage line, or a line that starts
    with [Error]. *)
Definition is_failure_line (line : string) : bool :=
  String.eqb line usage_transfer || String.eqb line usage_secret ||
  HasPrefix line "Error ".

(** Whether a [CreateSecret] call of the run was answered with success
    but without an ARN. *)
Definition created_without_arn (t : list Event) : bool :=
  existsb (λ ev, match ev with
                 | EvCreateSecret _ _ _ (Ok out) =>
                     match ARN out with None => true | Some _ => false end
                 | _ => false
                 end) t.


(** A run reports its outcome: the status is 0, 1 or 2; it is 2 exactly
    when a [CreateSecret] call succeeded without an ARN; otherwise
    something was printed, and the last line printed is a failure line
    exactly when the status is 1. *)
Definition reports_outcome {W A} (c : Cmd W A) (w : W) : Prop :=
  (run_status c w = 0 ∨ run_status c w = 1 ∨ run_status c w = 2) ∧
  (run_status c w = 2 ↔ created_without_arn (run_trace c w) = true) ∧
  (run_status c w ≠ 2 →
   ∃ line, last (stdout (run_trace c w)) = Some line ∧
           (run_status c w = 1 ↔ is_failure_line line = true)).

(** ** A probing platform

    A platform that answers each operation from a fixed script and records
    with which context, region and client it was called.  A handler calls
    each operation at most once, so the scripts range over everything the
    outside world can answer in one run. *)
Module Probe.
Record Script := mkScript {
  on_ReadFile : Result bytes;
  on_WriteFile : option error;
  on_LoadDefaultConfig : Result Config;
  on_PutObject : option error;
  on_GetObject : Result Body;
  on_DescribeSecret : option error;
  on_UpdateSecret : option error;
  on_CreateSecret : Result CreateSecretOutput;
}.

(** What the platform saw of a call. *)
Inductive Seen :=
| SeenLoadDefaultConfig (ctx : Context) (region : option string)
| SeenRequest (client : Config) (ctx : Context).

Record World := mkWorld { script : Script; seen : list Seen }.

Definition record (s : Seen) (w : World) : World :=
  mkWorld (script w) (seen w ++ [s]).

#[global] Instance platform : Platform World := {|
  sys_ReadFile := λ _ w, (on_ReadFile (script w), w);
  sys_WriteFile := λ _ _ _ w, (on_WriteFile (script w), w);
  sys_LoadDefaultConfig := λ ctx region w,
    (on_LoadDefaultConfig (script w), record (SeenLoadDefaultConfig ctx region) w);
  sys_PutObject := λ client ctx _ _ _ w,
    (on_PutObject (script w), record (SeenRequest client ctx) w);
  sys_GetObject := λ client ctx _ _ w,
    (on_GetObject (script w), record (SeenRequest client ctx) w);
  sys_DescribeSecret := λ client ctx _ w,
    (on_DescribeSecret (script w), record (SeenRequest client ctx) w);
  sys_UpdateSecret := λ client ctx _ _ _ w,
    (on_UpdateSecret (script w), record (SeenRequest client ctx) w);
  sys_CreateSecret := λ client ctx _ _ _ w,
    (on_CreateSecret (script w), record (SeenRequest client ctx) w);
|}.

(** The platform before any call. *)
Definition start (s : Script) : World := mkWorld s [].

(** Every call seen used context [ctx]; the configuration was asked for
    [region], and every request went through the client made of the
    configuration that the script resolves. *)
Definition all_calls_with (s : Script) (ctx : Context) (region : option string)
    (calls : list Seen) : Prop :=
  Forall (λ c, match c with
               | SeenLoadDefaultConfig ctx' region' => ctx' = ctx ∧ region' = region
               | SeenRequest client ctx' =>
                   ctx' = ctx ∧ on_LoadDefaultConfig s = Ok client
               end) calls.
End Probe.

(** ** More sample invocations *)
Module Scenario.
(** A script in which everything succeeds and the secret exists. *)
Definition all_fine : Probe.Script :=
  Probe.mkScript (Ok Sample.secret_json) None (Ok (mkConfig "eu-west-1")) None
                 (Ok (Ok Sample.note)) None None
                 (Ok (mkCreateSecretOutput (Some "arn:aws:secretsmanager:eu-west-1:secret:db-pass"))).

(** The same script when the configuration cannot be resolved, when the
    local file cannot be read, and when the object store refuses. *)
Definition no_credentials : Probe.Script :=
  Probe.mkScript (Ok Sample.secret_json) None
                 (Fail (mkError "failed to retrieve credentials")) None
                 (Ok (Ok Sample.note)) None None
                 (Ok (mkCreateSecretOutput (Some "arn:aws:secretsmanager:eu-west-1:secret:db-pass"))).
Definition unreadable : Probe.Script :=
  Probe.mkScript (Fail (mkError "open notes.txt: permission denied")) None
                 (Ok (mkConfig "eu-west-1")) None
                 (Ok (Ok Sample.note)) None None
                 (Ok (mkCreateSecretOutput (Some "arn:aws:secretsmanager:eu-west-1:secret:db-pass"))).
Definition refused : Probe.Script :=
  Probe.mkScript (Ok Sample.secret_json) (Some (mkError "open notes.txt: read-only file system"))
                 (Ok (mkConfig "eu-west-1")) (Some (mkError "AccessDenied"))
                 (Fail (mkError "AccessDenied")) (Some (mkError "AccessDenied"))
                 (Some (mkError "AccessDenied")) (Fail (mkError "AccessDenied")).
(** The object is found but its body breaks off; the object arrives but
    the local disk refuses the write. *)
Definition broken_body : Probe.Script :=
  Probe.mkScript (Ok Sample.secret_json) None (Ok (mkConfig "eu-west-1")) None
                 (Ok (Fail (mkError "unexpected EOF"))) None None
                 (Ok (mkCreateSecretOutput (Some "arn:aws:secretsmanager:eu-west-1:secret:db-pass"))).
Definition disk_full : Probe.Script :=
  Probe.mkScript (Ok Sample.secret_json) (Some (mkError "write notes.txt: no space left on device"))
                 (Ok (mkConfig "eu-west-1")) None
                 (Ok (Ok Sample.note)) None None
                 (Ok (mkCreateSecretOutput (Some "arn:aws:secretsmanager:eu-west-1:secret:db-pass"))).

(** Everything succeeds, the secret is not there yet, and the answer to
    [CreateSecret] carries no ARN. *)
Definition no_arn : Probe.Script :=
  Probe.mkScript (Ok Sample.secret_json) None (Ok (mkConfig "eu-west-1")) None
                 (Ok (Ok Sample.note))
                 (Some (mkError "ResourceNotFoundException: no such secret")) None
                 (Ok (mkCreateSecretOutput None)).

(** A machine that holds a stale copy of the note and another file, facing
    a bucket that has the note under [docs]. *)
Definition stale : Sim.World :=
  Sim.mkWorld {[ "notes.txt" := bytes_of_string "old"; "todo.txt" := bytes_of_string "later" ]}
              {[ ("backups", "docs/notes.txt") := Sample.note ]} ∅ None.

(** A machine that holds the note in a folder named after the year, facing
    an empty bucket. *)
Definition archive : Sim.World :=
  Sim.mkWorld {[ "2024/notes.txt" := Sample.note ]} ∅ ∅ None.
End Scenario.

(** * Properties *)

(** ** [strings.Contains] finds exactly the substrings *)

Lemma append_cons_l (c : ascii) (s t : string) :
  String c s +:+ t = String c (s +:+ t).
Proof. reflexivity. Qed.

Lemma HasPrefix_spec (p s : string) :
  HasPrefix s p = true ↔ ∃ post, s = p +:+ post.
Proof.
  revert s. induction p as [|c p IH]; intros s; cbn [HasPrefix].
  - split; [intros _; by exists s | done].
  - setoid_rewrite append_cons_l. destruct s as [|d s].
    + split; [done | intros [post Hpost]; discriminate].
    + destruct (Ascii.eqb_spec c d) as [->|Hne].
      * rewrite IH. split; intros [post Hpost]; exists post; congruence.
      * split; [done | intros [post Hpost]; congruence].
Qed.

Lemma Contains_spec (s substr : string) :
  Contains s substr = true ↔ ∃ pre post, s = pre +:+ substr +:+ post.
Proof.
  induction s as [|c s IH]; cbn [Contains].
  - rewrite orb_false_r, HasPrefix_spec. split.
    + intros [post Hpost]. by exists "", post.
    + intros [[|d pre] [post Hpost]]; [by exists post | discriminate].
  - rewrite orb_true_iff, HasPrefix_spec, IH. split.
    + intros [[post Hpost] | (pre & post & Hs)].
      * by exists "", post.
      * exists (String c pre), post. by rewrite append_cons_l, Hs.
    + intros [[|d pre] [post Hs]].
      * left. by exists post.
      * right. exists pre, post. rewrite append_cons_l in Hs. congruence.
Qed.

(** ** Symbolic execution of a handler *)

(** Unfold the monad and split on every answer of the platform. *)
Ltac unfold_cmd :=
  cbv [run_trace run_status run_world run
       uploadCmd downloadCmd updateSecretCmd createSecretCmd readSecretFromJSON
       ioutil_ReadFile ioutil_WriteFile config_LoadDefaultConfig
       s3_PutObject s3_GetObject ioutil_ReadAll
       secretsmanager_DescribeSecret secretsmanager_UpdateSecret
       secretsmanager_CreateSecret
       call fmt_Println skip return_ os_Exit panic deref
       mbind mret Cmd_bind Cmd_ret cmd_bind cmd_ret] in *.


(** ** [updateSecretCmd] follows its paths *)

(** The handler follows one of these paths in every world. *)
Lemma updateSecretCmd_path `{Platform W} (f : UpdateSecretFlags) (w : W) :
  UpdateSecretPath f (run (updateSecretCmd f) w).1 (run_trace (updateSecretCmd f) w).
Proof.
  unfold_cmd. fold (secret_flag_missing (flag_name f) (flag_region f)
                      (flag_description f) (flag_json_file f)).
  destruct (secret_flag_missing _ _ _ _) eqn:Hflags; cbn [fst snd trace world app].
  { by apply path_usage. }
  destruct (sys_ReadFile _ _) as [[data|err] w1]; cbn [fst snd trace world app].
  2: { apply path_read_failed. }
  destruct (sys_LoadDefaultConfig _ _ _) as [[cfg|err] w2]; cbn [fst snd trace world app].
  2: { apply path_config_failed. }
  destruct (sys_DescribeSecret _ _ _ _) as [[e|] w3]; cbn [fst snd trace world app].
  - destruct (Contains _ _) eqn:Hmarker; cbn [fst snd trace world app].
    2: { by apply path_describe_failed. }
    destruct (flag_update f) eqn:Hupdate; cbn [fst snd trace world app].
    + destruct (sys_UpdateSecret _ _ _ _ _ _) as [[err|] w4];
        cbn [fst snd trace world app].
      * by apply (path_update_failed f data cfg (Some e) err).
      * by apply (path_updated f data cfg (Some e)).
    + destruct (sys_CreateSecret _ _ _ _ _ _) as [[[[arn|]]|err] w4];
        cbn [fst snd trace world app ARN].
      * by apply (path_created f data cfg e arn).
      * by apply (path_created_without_arn f data cfg e).
      * by apply (path_create_failed f data cfg e err).
  - destruct (flag_update f) eqn:Hupdate; cbn [fst snd trace world app negb].
    + destruct (sys_UpdateSecret _ _ _ _ _ _) as [[err|] w4];
        cbn [fst snd trace world app].
      * by apply (path_update_failed f data cfg None err).
      * by apply (path_updated f data cfg None).
    + by apply (path_already_exists f data cfg).
Qed.

(** Case analysis of a run of [updateSecretCmd] along its paths. *)
Ltac by_paths f w :=
  unfold run_status;
  generalize (updateSecretCmd_path f w);
  generalize (run (updateSecretCmd f) w).1, (run_trace (updateSecretCmd f) w);
  intros ? ? [ | | | | | ? ? [?|] | ? ? [?|] | | | ];
  cbn [described passes app]; cbn.

(** ** The decision of [update-secret] *)

(** C1 (evaluated on the code). When [DescribeSecret] fails with a message
    that has the marker [ResourceNotFoundException], the handler prints
    that it proceeds with creation and then dispatches on the update flag
    alone: without [--update] it calls [CreateSecret] exactly once and
    never [UpdateSecret]; with [--update] it calls [UpdateSecret] exactly
    once and never [CreateSecret]. *)
Theorem not_found_dispatches_on_update_flag `{Platform W}
    (f : UpdateSecretFlags) (w : W) (err : error) :
  let t := run_trace (updateSecretCmd f) w in
  describe_answer t = Some (Some err) →
  Contains (Error err) "ResourceNotFoundException" = true →
  head (stdout t) = Some "Secret does not exist. Proceeding with creation..." ∧
  if flag_update f
  then count is_update t = 1%nat ∧ count is_create t = 0%nat
  else count is_create t = 1%nat ∧ count is_update t = 0%nat.
Proof.
  by_paths f w.
  all: intros; simplify_eq; try congruence.
  all: repeat match goal with Hu : flag_update _ = _ |- _ => rewrite Hu; clear Hu end.
  all: auto.
Qed.

Lemma not_found_dispatches_on_update_flag_witness :
  head (stdout (run_trace (updateSecretCmd (Sample.db_pass true)) Sample.fresh))
    = Some "Secret does not exist. Proceeding with creation..." ∧
  count is_update (run_trace (updateSecretCmd (Sample.db_pass true)) Sample.fresh) = 1%nat ∧
  count is_create (run_trace (updateSecretCmd (Sample.db_pass true)) Sample.fresh) = 0%nat.
Proof.
  apply (not_found_dispatches_on_update_flag
           (Sample.db_pass true) Sample.fresh Sim.ResourceNotFound);
    vm_compute; reflexivity.
Defined.



(** C4. When [DescribeSecret] succeeds (the secret exists) and [--update]
    was not passed, the handler makes no further call: neither
    [CreateSecret] nor [UpdateSecret], no mutation at all.  It prints the
    no-op message and returns, so the process ends with status 0. *)
Theorem exists_without_update_is_noop `{Platform W}
    (f : UpdateSecretFlags) (w : W) :
  let t := run_trace (updateSecretCmd f) w in
  describe_answer t = Some None →
  flag_update f = false →
  count is_create t = 0%nat ∧ count is_update t = 0%nat ∧
  count is_mutation t = 0%nat ∧
  List.filter is_network t = [EvDescribeSecret (flag_name f) None] ∧
  run_status (updateSecretCmd f) w = 0 ∧
  stdout t = ["Secret already exists and update flag not set. Exiting."].
Proof.
  by_paths f w.
  all: intros; simplify_eq; try congruence.
  auto 10.
Qed.

Lemma exists_without_update_is_noop_witness :
  count is_create (run_trace (updateSecretCmd (Sample.db_pass false)) Sample.stored) = 0%nat ∧
  count is_update (run_trace (updateSecretCmd (Sample.db_pass false)) Sample.stored) = 0%nat ∧
  count is_mutation (run_trace (updateSecretCmd (Sample.db_pass false)) Sample.stored) = 0%nat ∧
  List.filter is_network (run_trace (updateSecretCmd (Sample.db_pass false)) Sample.stored)
    = [EvDescribeSecret "db-pass" None] ∧
  run_status (updateSecretCmd (Sample.db_pass false)) Sample.stored = 0 ∧
  stdout (run_trace (updateSecretCmd (Sample.db_pass false)) Sample.stored)
    = ["Secret already exists and update flag not set. Exiting."].
Proof.
  apply (exists_without_update_is_noop (Sample.db_pass false) Sample.stored);
    vm_compute; reflexivity.
Defined.

(** C5. When [DescribeSecret] fails with a message that lacks the marker
    [ResourceNotFoundException], the handler calls neither [CreateSecret]
    nor [UpdateSecret] (no mutation at all), prints the error it received
    and exits with status 1. *)
Theorem describe_unknown_error_is_fatal `{Platform W}
    (f : UpdateSecretFlags) (w : W) (err : error) :
  let t := run_trace (updateSecretCmd f) w in
  describe_answer t = Some (Some err) →
  Contains (Error err) "ResourceNotFoundException" = false →
  count is_create t = 0%nat ∧ count is_update t = 0%nat ∧
  count is_mutation t = 0%nat ∧
  List.filter is_network t = [EvDescribeSecret (flag_name f) (Some err)] ∧
  run_status (updateSecretCmd f) w = 1 ∧
  stdout t = ["Error describing secret: " +:+ Error err].
Proof.
  by_paths f w.
  all: intros; simplify_eq; try congruence.
  auto 10.
Qed.

Lemma describe_unknown_error_is_fatal_witness :
  count is_create (run_trace (updateSecretCmd (Sample.db_pass true)) Sample.denied) = 0%nat ∧
  count is_update (run_trace (updateSecretCmd (Sample.db_pass true)) Sample.denied) = 0%nat ∧
  count is_mutation (run_trace (updateSecretCmd (Sample.db_pass true)) Sample.denied) = 0%nat ∧
  List.filter is_network (run_trace (updateSecretCmd (Sample.db_pass true)) Sample.denied)
    = [EvDescribeSecret "db-pass" (Some Sample.access_denied)] ∧
  run_status (updateSecretCmd (Sample.db_pass true)) Sample.denied = 1 ∧
  stdout (run_trace (updateSecretCmd (Sample.db_pass true)) Sample.denied)
    = ["Error describing secret: " +:+ Error Sample.access_denied].
Proof.
  apply (describe_unknown_error_is_fatal
           (Sample.db_pass true) Sample.denied Sample.access_denied);
    vm_compute; reflexivity.
Defined.

(** C8. A failed [DescribeSecret] is taken as "the secret does not exist"
    exactly when the message of the error contains the marker
    [ResourceNotFoundException] as a substring: then, and only then, the
    handler announces the creation and goes on to its one mutating call.
    A failure whose message lacks the marker is fatal: the error is
    printed, nothing is mutated and the process exits with status 1. *)
Theorem not_found_iff_message_has_marker `{Platform W}
    (f : UpdateSecretFlags) (w : W) (err : error) :
  let t := run_trace (updateSecretCmd f) w in
  let has_marker :=
    ∃ pre post, Error err = pre +:+ "ResourceNotFoundException" +:+ post in
  describe_answer t = Some (Some err) →
  (has_marker ↔
     head (stdout t) = Some "Secret does not exist. Proceeding with creation...") ∧
  (has_marker → (count is_create t + count is_update t = 1)%nat) ∧
  (¬ has_marker →
     run_status (updateSecretCmd f) w = 1 ∧
     stdout t = ["Error describing secret: " +:+ Error err] ∧
     count is_mutation t = 0%nat).
Proof.
  intros t has_marker. subst t has_marker. rewrite <- Contains_spec.
  by_paths f w.
  all: intros; simplify_eq; try congruence.
  all: split_and!; [split | |]; intros; try congruence; try discriminate; auto.
Qed.

Lemma not_found_iff_message_has_marker_witness :
  head (stdout (run_trace (updateSecretCmd (Sample.db_pass false)) Sample.fresh))
    = Some "Secret does not exist. Proceeding with creation..." ∧
  (count is_create (run_trace (updateSecretCmd (Sample.db_pass false)) Sample.fresh) +
   count is_update (run_trace (updateSecretCmd (Sample.db_pass false)) Sample.fresh) = 1)%nat.
Proof.
  destruct (not_found_iff_message_has_marker
              (Sample.db_pass false) Sample.fresh Sim.ResourceNotFound)
    as (Hiff & Hgoes_on & _); [vm_compute; reflexivity |].
  assert (Hmarker : ∃ pre post,
             Error Sim.ResourceNotFound = pre +:+ "ResourceNotFoundException" +:+ post).
  { exists "operation error Secrets Manager: ",
           ": Secrets Manager can't find the specified secret.". reflexivity. }
  split; [apply Hiff, Hmarker | apply Hgoes_on, Hmarker].
Defined.

(** ** The parameter checks *)

(** C7. A handler that finds one of its required flags empty prints the
    usage line and exits with status 1, and that is all it does: the trace
    holds the one printed line, so no file was read or written, no
    configuration loaded and no request sent, and the world is as it
    was. *)
Theorem missing_required_flag_is_fatal `{Platform W} (w : W) :
  (∀ f : TransferFlags,
     flag_bucket f = "" ∨ flag_file f = "" →
     run (uploadCmd f) w = (Exited 1, mkState w [EvPrintln usage_transfer]) ∧
     run (downloadCmd f) w = (Exited 1, mkState w [EvPrintln usage_transfer])) ∧
  (∀ f : UpdateSecretFlags,
     flag_name f = "" ∨ flag_region f = "" ∨
     flag_description f = "" ∨ flag_json_file f = "" →
     run (updateSecretCmd f) w = (Exited 1, mkState w [EvPrintln usage_secret])) ∧
  (∀ f : CreateSecretFlags,
     cflag_name f = "" ∨ cflag_region f = "" ∨
     cflag_description f = "" ∨ cflag_json_file f = "" →
     run (createSecretCmd f) w = (Exited 1, mkState w [EvPrintln usage_secret])).
Proof.
  split_and!.
  - intros f Hmissing.
    assert (Hcheck : String.eqb (flag_bucket f) "" || String.eqb (flag_file f) "" = true).
    { rewrite orb_true_iff, !String.eqb_eq. exact Hmissing. }
    unfold_cmd. by rewrite Hcheck.
  - intros f Hmissing.
    assert (Hcheck : String.eqb (flag_name f) "" || String.eqb (flag_region f) "" ||
                     String.eqb (flag_description f) "" ||
                     String.eqb (flag_json_file f) "" = true).
    { rewrite !orb_true_iff, !String.eqb_eq. tauto. }
    unfold_cmd. by rewrite Hcheck.
  - intros f Hmissing.
    assert (Hcheck : String.eqb (cflag_name f) "" || String.eqb (cflag_region f) "" ||
                     String.eqb (cflag_description f) "" ||
                     String.eqb (cflag_json_file f) "" = true).
    { rewrite !orb_true_iff, !String.eqb_eq. tauto. }
    unfold_cmd. by rewrite Hcheck.
Qed.

Lemma missing_required_flag_is_fatal_witness :
  run (uploadCmd (mkTransferFlags "" "notes.txt" "docs")) Sample.fresh
    = (Exited 1, mkState Sample.fresh [EvPrintln usage_transfer]) ∧
  run (downloadCmd (mkTransferFlags "backups" "" "")) Sample.fresh
    = (Exited 1, mkState Sample.fresh [EvPrintln usage_transfer]) ∧
  run (updateSecretCmd (mkUpdateSecretFlags "db-pass" "us-east-1" "" "secret.json"
                                            (30 * time_Second) true)) Sample.fresh
    = (Exited 1, mkState Sample.fresh [EvPrintln usage_secret]) ∧
  run (createSecretCmd default_CreateSecretFlags) Sample.fresh
    = (Exited 1, mkState Sample.fresh [EvPrintln usage_secret]).
Proof.
  destruct (missing_required_flag_is_fatal Sample.fresh) as (Htransfer & Hupdate & Hcreate).
  split_and!.
  - apply (Htransfer (mkTransferFlags "" "notes.txt" "docs")). left. reflexivity.
  - apply (Htransfer (mkTransferFlags "backups" "" "")). right. reflexivity.
  - apply (Hupdate (mkUpdateSecretFlags "db-pass" "us-east-1" "" "secret.json"
                                         (30 * time_Second) true)).
    right. right. left. reflexivity.
  - apply (Hcreate default_CreateSecretFlags). left. reflexivity.
Defined.

(** ** [create-secret] *)


(** C2 (as amended). [createSecretCmd] has no existence check: it never
    calls [DescribeSecret] and never [UpdateSecret].  Once its parameters
    are present, the file is read and the configuration is loaded, its one
    network call is [CreateSecret], whatever the state of the secret.
    When that call fails the process exits with status 1 after printing
    the error.  When it succeeds the handler dereferences the ARN of the
    answer: with an ARN it prints it and the status is 0; without one the
    dereference panics, nothing is printed and the status is 2. *)
Theorem create_secret_always_calls_create `{Platform W}
    (f : CreateSecretFlags) (w : W) :
  let t := run_trace (createSecretCmd f) w in
  count is_describe t = 0%nat ∧ count is_update t = 0%nat ∧
  (config_loaded t = true →
   ∃ value r,
     List.filter is_network t =
       [EvCreateSecret (cflag_name f) (cflag_description f) value r] ∧
     match r with
     | Ok createOutput =>
         match ARN createOutput with
         | Some arn =>
             run_status (createSecretCmd f) w = 0 ∧
             last (stdout t) = Some ("Successfully created, Secret ARN: " +:+ arn)
         | None =>
             run_status (createSecretCmd f) w = 2 ∧ stdout t = []
         end
     | Fail err =>
         run_status (createSecretCmd f) w = 1 ∧
         last (stdout t) = Some ("Error creating secret: " +:+ Error err)
     end).
Proof.
  unfold_cmd.
  destruct (_ || _); cbn [fst snd trace world app].
  { by cbn. }
  destruct (sys_ReadFile _ _) as [[data|err] w1]; cbn [fst snd trace world app].
  2: { by cbn. }
  destruct (sys_LoadDefaultConfig _ _ _) as [[cfg|err] w2]; cbn [fst snd trace world app].
  2: { by cbn. }
  destruct (sys_CreateSecret _ _ _ _ _ _) as [[[[arn|]]|err] w3] eqn:Hcreate;
    cbn [fst snd trace world app ARN].
  - do 2 (split; [reflexivity|]). intros _.
    exists (string_of_bytes data), (Ok (mkCreateSecretOutput (Some arn))). by cbn.
  - do 2 (split; [reflexivity|]). intros _.
    exists (string_of_bytes data), (Ok (mkCreateSecretOutput None)). by cbn.
  - do 2 (split; [reflexivity|]). intros _.
    exists (string_of_bytes data), (Fail err). by cbn.
Qed.

Lemma create_secret_always_calls_create_witness :
  count is_describe (run_trace (createSecretCmd Sample.db_pass_create) Sample.stored) = 0%nat ∧
  count is_update (run_trace (createSecretCmd Sample.db_pass_create) Sample.stored) = 0%nat ∧
  ∃ value r,
    List.filter is_network (run_trace (createSecretCmd Sample.db_pass_create) Sample.stored)
      = [EvCreateSecret "db-pass" "prod db password" value r].
Proof.
  destruct (create_secret_always_calls_create Sample.db_pass_create Sample.stored)
    as (Hdescribe & Hupdate & Hcreate).
  split_and!; [exact Hdescribe | exact Hupdate |].
  destruct Hcreate as (value & r & Hcall & _); [vm_compute; reflexivity |].
  exists value, r. exact Hcall.
Defined.

(** C2 as stated fails where the secret is already stored.  The claim asks
    for a first network call that is [DescribeSecret] and for a silent
    no-op (status 0, nothing mutated); [create-secret] makes no
    [DescribeSecret] call, attempts [CreateSecret] and exits with status 1
    on the service's refusal.  [update-secret] without [--update], on the
    same machine, does what the claim describes. *)
Lemma create_secret_on_stored_secret_counterexample :
  is_Some (Sim.secrets Sample.stored !! "db-pass") ∧
  ¬ ((∃ d, head (List.filter is_network
                   (run_trace (createSecretCmd Sample.db_pass_create) Sample.stored))
             = Some (EvDescribeSecret "db-pass" d)) ∧
     run_status (createSecretCmd Sample.db_pass_create) Sample.stored = 0 ∧
     count is_mutation
       (run_trace (createSecretCmd Sample.db_pass_create) Sample.stored) = 0%nat) ∧
  count is_describe
    (run_trace (createSecretCmd Sample.db_pass_create) Sample.stored) = 0%nat ∧
  count is_create
    (run_trace (createSecretCmd Sample.db_pass_create) Sample.stored) = 1%nat ∧
  run_status (createSecretCmd Sample.db_pass_create) Sample.stored = 1 ∧
  count is_describe
    (run_trace (updateSecretCmd (Sample.db_pass false)) Sample.stored) = 1%nat ∧
  count is_mutation
    (run_trace (updateSecretCmd (Sample.db_pass false)) Sample.stored) = 0%nat ∧
  run_status (updateSecretCmd (Sample.db_pass false)) Sample.stored = 0.
Proof.
  split_and!; try (vm_compute; reflexivity).
  - eexists. vm_compute. reflexivity.
  - intros (_ & Hstatus & _). vm_compute in Hstatus. discriminate.
Qed.

(** ** The secret value *)





(** ** Object keys *)






(** ** Round trip through the simulated object store *)

Ltac sim_step :=
  cbn [sys_LoadDefaultConfig sys_ReadFile sys_PutObject sys_GetObject sys_WriteFile
       Sim.platform fst snd trace world app
       flag_bucket flag_file flag_subdirectory];
  unfold Sim.LoadDefaultConfig, Sim.ReadFile, Sim.PutObject, Sim.GetObject,
         Sim.WriteFile;
  cbn [fst snd trace world app].

(** [upload] in the simulated cloud, for a file that is there. *)
Lemma sim_upload (f : TransferFlags) (contents : bytes) (w : Sim.World) :
  let addr := (flag_bucket f, flag_subdirectory f +:+ "/" +:+ flag_file f) in
  Sim.fs w !! flag_file f = Some contents →
  let r := run (uploadCmd f) w in
  if String.eqb (flag_bucket f) "" || String.eqb (flag_file f) "" then
    exit_status r.1 = 1 ∧ world r.2 = w
  else
    match Sim.outage w with
    | Some _ => exit_status r.1 = 1 ∧ world r.2 = w
    | None =>
        exit_status r.1 = 0 ∧
        world r.2 = Sim.set_s3 w (<[addr := contents]> (Sim.s3 w)) ∧
        object_addresses (trace r.2) = [addr]
    end.
Proof.
  intros addr Hfile r. subst addr r. unfold_cmd.
  destruct (_ || _); sim_step; [done|].
  rewrite Hfile. sim_step.
  destruct (Sim.outage w); sim_step; done.
Qed.

(** [download] in the simulated cloud. *)
Lemma sim_download (f : TransferFlags) (w : Sim.World) :
  let addr := (flag_bucket f, flag_subdirectory f +:+ "/" +:+ flag_file f) in
  let r := run (downloadCmd f) w in
  if String.eqb (flag_bucket f) "" || String.eqb (flag_file f) "" then
    exit_status r.1 = 1 ∧ world r.2 = w
  else
    match Sim.outage w, Sim.s3 w !! addr with
    | None, Some data =>
        exit_status r.1 = 0 ∧
        world r.2 = Sim.set_fs w (<[flag_file f := data]> (Sim.fs w)) ∧
        object_addresses (trace r.2) = [addr]
    | _, _ => exit_status r.1 = 1 ∧ world r.2 = w
    end.
Proof.
  intros addr r. subst addr r. unfold_cmd.
  destruct (_ || _); sim_step; [done|].
  destruct (Sim.outage w); sim_step; [done|].
  destruct (Sim.s3 w !! _); sim_step; done.
Qed.

(** C6. In the simulated cloud, take a file with some contents.  Running
    [upload] and then [download] with the same flags leaves the file with
    the same bytes.  When the two required flags are present and the store
    answers, [upload] stores the bytes under the key of the flags, and a
    [download] with these flags, whatever has become of the local files in
    between, asks for the same key and writes the same bytes to the file
    path; both end with status 0. *)
Theorem upload_then_download_restores_contents
    (f : TransferFlags) (contents : bytes) (w : Sim.World) :
  let addr := (flag_bucket f, flag_subdirectory f +:+ "/" +:+ flag_file f) in
  let w1 := run_world (uploadCmd f) w in
  Sim.fs w !! flag_file f = Some contents →
  Sim.fs (run_world (downloadCmd f) w1) !! flag_file f = Some contents ∧
  (flag_bucket f ≠ "" → flag_file f ≠ "" → Sim.outage w = None →
   run_status (uploadCmd f) w = 0 ∧
   object_addresses (run_trace (uploadCmd f) w) = [addr] ∧
   Sim.s3 w1 !! addr = Some contents ∧
   ∀ local : gmap string bytes,
     let w2 := Sim.set_fs w1 local in
     run_status (downloadCmd f) w2 = 0 ∧
     object_addresses (run_trace (downloadCmd f) w2) = [addr] ∧
     Sim.fs (run_world (downloadCmd f) w2) !! flag_file f = Some contents).
Proof.
  intros addr w1 Hfile.
  pose proof (sim_upload f contents w Hfile) as Hup.
  pose proof (sim_download f) as Hdown.
  cbv zeta in Hup, Hdown. fold addr in Hup, Hdown.
  unfold run_status, run_trace, run_world in *.
  destruct (_ || _) eqn:Hflags.
  - (* a required flag is empty: neither command does anything *)
    destruct Hup as [_ Hw1]. subst w1. rewrite Hw1.
    destruct (Hdown w) as [_ ->]. split; [done|].
    intros Hbucket Hname.
    apply orb_true_iff in Hflags as [?%String.eqb_eq | ?%String.eqb_eq]; done.
  - destruct (Sim.outage w) as [err|] eqn:Houtage.
    + (* the store is unreachable: nothing is stored, nothing is written *)
      destruct Hup as [_ Hw1]. subst w1. rewrite Hw1.
      specialize (Hdown w). rewrite Houtage in Hdown.
      destruct Hdown as [_ ->]. done.
    + destruct Hup as (Hstatus & Hw1 & Hput). subst w1. rewrite Hw1.
      assert (Hstored : ∀ local,
                 Sim.s3 (Sim.set_fs (Sim.set_s3 w (<[addr:=contents]> (Sim.s3 w))) local)
                   !! addr = Some contents).
      { intros local. cbn. apply lookup_insert_eq. }
      assert (Hback : ∀ w2,
                 Sim.outage w2 = None → Sim.s3 w2 !! addr = Some contents →
                 exit_status (run (downloadCmd f) w2).1 = 0 ∧
                 object_addresses (trace (run (downloadCmd f) w2).2) = [addr] ∧
                 Sim.fs (world (run (downloadCmd f) w2).2) !! flag_file f = Some contents).
      { intros w2 Hreach Hobj. specialize (Hdown w2).
        rewrite Hreach, Hobj in Hdown. destruct Hdown as (? & -> & ?).
        split_and!; [done | done |]. cbn. apply lookup_insert_eq. }
      split.
      * apply Hback; [done | cbn; apply lookup_insert_eq].
      * intros _ _ _. split_and!; [done | done | cbn; apply lookup_insert_eq |].
        intros local. apply Hback; [done | apply Hstored].
Qed.

Lemma upload_then_download_restores_contents_witness :
  Sim.s3 (run_world (uploadCmd Sample.notes) Sample.laptop)
    !! ("backups", "docs/notes.txt") = Some Sample.note ∧
  Sim.fs (run_world (downloadCmd Sample.notes)
            (Sim.set_fs (run_world (uploadCmd Sample.notes) Sample.laptop) ∅))
    !! "notes.txt" = Some Sample.note.
Proof.
  destruct (upload_then_download_restores_contents
              Sample.notes Sample.note Sample.laptop) as [_ Hpresent];
    [vm_compute; reflexivity |].
  destruct Hpresent as (_ & _ & Hstored & Hback);
    [discriminate | discriminate | reflexivity |].
  split; [exact Hstored | apply (Hback ∅)].
Defined.


(** * Further properties of the handlers *)

(** ** The other handlers follow their paths *)

Lemma uploadCmd_path `{Platform W} (f : TransferFlags) (w : W) :
  UploadPath f (run (uploadCmd f) w).1 (run_trace (uploadCmd f) w).
Proof.
  unfold_cmd. fold (transfer_flag_missing (flag_bucket f) (flag_file f)).
  destruct (transfer_flag_missing _ _) eqn:Hflags; cbn [fst snd trace world app].
  { by apply upload_usage. }
  destruct (sys_LoadDefaultConfig _ _ _) as [[cfg|err] w1]; cbn [fst snd trace world app].
  2: { apply upload_config_failed. }
  destruct (sys_ReadFile _ _) as [[data|err] w2]; cbn [fst snd trace world app].
  2: { apply upload_read_failed. }
  destruct (sys_PutObject _ _ _ _ _ _) as [[err|] w3]; cbn [fst snd trace world app].
  - apply (upload_put_failed f cfg data err).
  - apply (upload_done f cfg data).
Qed.

Lemma downloadCmd_path `{Platform W} (f : TransferFlags) (w : W) :
  DownloadPath f (run (downloadCmd f) w).1 (run_trace (downloadCmd f) w).
Proof.
  unfold_cmd. fold (transfer_flag_missing (flag_bucket f) (flag_file f)).
  destruct (transfer_flag_missing _ _) eqn:Hflags; cbn [fst snd trace world app].
  { by apply download_usage. }
  destruct (sys_LoadDefaultConfig _ _ _) as [[cfg|err] w1]; cbn [fst snd trace world app].
  2: { apply download_config_failed. }
  destruct (sys_GetObject _ _ _ _ _) as [[[data|err]|err] w2];
    cbn [fst snd trace world app].
  2: { apply (download_body_failed f cfg err). }
  2: { apply (download_get_failed f cfg err). }
  destruct (sys_WriteFile _ _ _ _) as [[err|] w3]; cbn [fst snd trace world app].
  - apply (download_write_failed f cfg data err).
  - apply (download_done f cfg data).
Qed.

Lemma createSecretCmd_path `{Platform W} (f : CreateSecretFlags) (w : W) :
  CreateSecretPath f (run (createSecretCmd f) w).1 (run_trace (createSecretCmd f) w).
Proof.
  unfold_cmd. fold (secret_flag_missing (cflag_name f) (cflag_region f)
                      (cflag_description f) (cflag_json_file f)).
  destruct (secret_flag_missing _ _ _ _) eqn:Hflags; cbn [fst snd trace world app].
  { by apply create_usage. }
  destruct (sys_ReadFile _ _) as [[data|err] w1]; cbn [fst snd trace world app].
  2: { apply create_read_failed. }
  destruct (sys_LoadDefaultConfig _ _ _) as [[cfg|err] w2]; cbn [fst snd trace world app].
  2: { apply create_config_failed. }
  destruct (sys_CreateSecret _ _ _ _ _ _) as [[[[arn|]]|err] w3];
    cbn [fst snd trace world app ARN].
  - apply (create_done f data cfg arn).
  - apply (create_done_without_arn f data cfg).
  - apply (create_call_failed f data cfg err).
Qed.

(** Case analysis of a run along the paths that [path] proves. *)
Ltac along path :=
  unfold run_status;
  generalize path;
  match type of path with _ _ ?o ?t => generalize o, t end;
  intros ? ? []; cbn.

(** Membership of an event in a trace that is written out. *)
Ltac in_trace :=
  repeat match goal with
         | Hin : _ ∈ [] |- _ => by apply elem_of_nil in Hin
         | Hin : _ ∈ _ :: _ |- _ =>
             apply elem_of_cons in Hin as [Hin|Hin]; [try discriminate Hin|]
         end;
  simplify_eq.

Ltac here := repeat first [apply list_elem_of_here | apply list_elem_of_further].

(** ** [upload] *)


(** An event is in the trace of a run on a sample world. *)
Ltac sample_event := apply list_elem_of_In; vm_compute; tauto.


(** X2. [upload] ends with status 0 exactly when its [PutObject] was
    accepted, and exactly then its output is the one line
    [File uploaded to S3 successfully.]. *)
Theorem upload_succeeds_iff_put_accepted `{Platform W} (f : TransferFlags) (w : W) :
  (run_status (uploadCmd f) w = 0 ↔
   ∃ body, EvPutObject (flag_bucket f) (object_key f) body None
             ∈ run_trace (uploadCmd f) w) ∧
  (run_status (uploadCmd f) w = 0 ↔
   stdout (run_trace (uploadCmd f) w) = ["File uploaded to S3 successfully."]).
Proof.
  along (uploadCmd_path f w); intros.
  all: split; split; try done; try (intros [body Hin]; in_trace).
  intros _. eexists. here.
Qed.

Lemma upload_succeeds_iff_put_accepted_witness :
  run_status (uploadCmd Sample.notes) Sample.laptop = 0 ∧
  stdout (run_trace (uploadCmd Sample.notes) Sample.laptop)
    = ["File uploaded to S3 successfully."].
Proof.
  destruct (upload_succeeds_iff_put_accepted Sample.notes Sample.laptop)
    as [Haccepted Hline].
  assert (Hstatus : run_status (uploadCmd Sample.notes) Sample.laptop = 0).
  { apply Haccepted. exists Sample.note. sample_event. }
  split; [exact Hstatus | apply Hline, Hstatus].
Defined.

(** X3. [upload] stops at its first failure and reports it in one line.
    If the configuration cannot be loaded the file is not read and nothing
    is sent; if the file cannot be read nothing is sent; if the store
    refuses the object the run fails.  Each time the status is 1. *)
Theorem upload_stops_at_first_failure `{Platform W} (f : TransferFlags) (w : W)
    (err : error) :
  let t := run_trace (uploadCmd f) w in
  (EvLoadDefaultConfig None (Fail err) ∈ t →
     count is_file_read t = 0%nat ∧ count is_network t = 0%nat ∧
     run_status (uploadCmd f) w = 1 ∧
     stdout t = ["Error loading AWS SDK config: " +:+ Error err]) ∧
  (EvReadFile (flag_file f) (Fail err) ∈ t →
     count is_network t = 0%nat ∧
     run_status (uploadCmd f) w = 1 ∧
     stdout t = ["Error reading file: " +:+ Error err]) ∧
  (∀ body, EvPutObject (flag_bucket f) (object_key f) body (Some err) ∈ t →
     run_status (uploadCmd f) w = 1 ∧
     stdout t = ["Error uploading file to S3: " +:+ Error err]).
Proof.
  along (uploadCmd_path f w); intros.
  all: split_and!; intros; in_trace; done.
Qed.

Lemma upload_stops_at_first_failure_witness :
  (count is_file_read
     (run_trace (uploadCmd Sample.notes) (Probe.start Scenario.no_credentials)) = 0%nat ∧
   run_status (uploadCmd Sample.notes) (Probe.start Scenario.no_credentials) = 1) ∧
  (count is_network
     (run_trace (uploadCmd Sample.notes) (Probe.start Scenario.unreadable)) = 0%nat ∧
   run_status (uploadCmd Sample.notes) (Probe.start Scenario.unreadable) = 1) ∧
  run_status (uploadCmd Sample.notes) (Probe.start Scenario.refused) = 1.
Proof.
  split; [|split].
  - destruct (upload_stops_at_first_failure Sample.notes
                (Probe.start Scenario.no_credentials)
                (mkError "failed to retrieve credentials")) as (Hconfig & _ & _).
    destruct Hconfig as (? & _ & ? & _); [sample_event | done].
  - destruct (upload_stops_at_first_failure Sample.notes
                (Probe.start Scenario.unreadable)
                (mkError "open notes.txt: permission denied")) as (_ & Hread & _).
    destruct Hread as (? & ? & _); [sample_event | done].
  - destruct (upload_stops_at_first_failure Sample.notes
                (Probe.start Scenario.refused) (mkError "AccessDenied")) as (_ & _ & Hput).
    destruct (Hput Sample.secret_json) as (? & _); [sample_event | done].
Defined.

(** X4. [upload] leaves the local files and the secrets alone and never
    fetches an object: in every run it writes no file, calls no secrets
    operation, and its only request to the object store, if any, is one
    [PutObject]. *)
Theorem upload_only_puts `{Platform W} (f : TransferFlags) (w : W) :
  let t := run_trace (uploadCmd f) w in
  count is_file_write t = 0%nat ∧ count is_secrets t = 0%nat ∧
  count is_s3 t = count is_put t ∧ (count is_put t ≤ 1)%nat ∧
  count is_network t = count is_put t.
Proof.
  along (uploadCmd_path f w); intros; split_and!; done || lia.
Qed.

(** ** [download] *)



(** X6. A [download] that does not get the object writes nothing.  When
    [GetObject] fails, or when the body of its answer cannot be read, no
    local file is written, the error is reported in one line and the
    status is 1; when the write itself fails the status is 1 as well. *)
Theorem download_failure_writes_nothing `{Platform W} (f : TransferFlags) (w : W)
    (err : error) :
  let t := run_trace (downloadCmd f) w in
  (EvGetObject (flag_bucket f) (object_key f) (Fail err) ∈ t →
     count is_file_write t = 0%nat ∧
     run_status (downloadCmd f) w = 1 ∧
     stdout t = ["Error downloading file from S3: " +:+ Error err]) ∧
  (EvGetObject (flag_bucket f) (object_key f) (Ok (Fail err)) ∈ t →
     count is_file_write t = 0%nat ∧
     run_status (downloadCmd f) w = 1 ∧
     stdout t = ["Error reading file contents: " +:+ Error err]) ∧
  (∀ data, EvWriteFile (flag_file f) data perm_0644 (Some err) ∈ t →
     run_status (downloadCmd f) w = 1 ∧
     stdout t = ["Error writing file to disk: " +:+ Error err]).
Proof.
  along (downloadCmd_path f w); intros.
  all: split_and!; intros; in_trace; done.
Qed.

Lemma download_failure_writes_nothing_witness :
  count is_file_write
    (run_trace (downloadCmd Sample.notes) (Probe.start Scenario.refused)) = 0%nat ∧
  count is_file_write
    (run_trace (downloadCmd Sample.notes) (Probe.start Scenario.broken_body)) = 0%nat ∧
  run_status (downloadCmd Sample.notes) (Probe.start Scenario.disk_full) = 1.
Proof.
  split; [|split].
  - destruct (download_failure_writes_nothing Sample.notes
                (Probe.start Scenario.refused) (mkError "AccessDenied")) as (Hget & _ & _).
    destruct Hget as (? & _); [sample_event | done].
  - destruct (download_failure_writes_nothing Sample.notes
                (Probe.start Scenario.broken_body) (mkError "unexpected EOF"))
      as (_ & Hbody & _).
    destruct Hbody as (? & _); [sample_event | done].
  - destruct (download_failure_writes_nothing Sample.notes
                (Probe.start Scenario.disk_full)
                (mkError "write notes.txt: no space left on device")) as (_ & _ & Hwrite).
    destruct (Hwrite Sample.note) as (? & _); [sample_event | done].
Defined.




(** ** The secret commands *)

(** X9. Both secret commands read the JSON file before they turn to AWS,
    and load the configuration before any request.  When the file cannot
    be read, the configuration is not loaded and no request is sent; when
    the configuration cannot be loaded, no request is sent.  Each time
    the error is reported in one line and the status is 1. *)
Theorem secret_commands_fail_before_any_request `{Platform W}
    (u : UpdateSecretFlags) (c : CreateSecretFlags) (w : W)
    (region : option string) (err : error) :
  let tu := run_trace (updateSecretCmd u) w in
  let tc := run_trace (createSecretCmd c) w in
  (EvReadFile (flag_json_file u) (Fail err) ∈ tu →
     config_regions tu = [] ∧ count is_network tu = 0%nat ∧
     run_status (updateSecretCmd u) w = 1 ∧
     stdout tu = ["Error reading secret value from JSON file: " +:+ Error err]) ∧
  (EvLoadDefaultConfig region (Fail err) ∈ tu →
     count is_network tu = 0%nat ∧
     run_status (updateSecretCmd u) w = 1 ∧
     stdout tu = ["Error loading AWS SDK config: " +:+ Error err]) ∧
  (EvReadFile (cflag_json_file c) (Fail err) ∈ tc →
     config_regions tc = [] ∧ count is_network tc = 0%nat ∧
     run_status (createSecretCmd c) w = 1 ∧
     stdout tc = ["Error reading secret value from JSON file: " +:+ Error err]) ∧
  (EvLoadDefaultConfig region (Fail err) ∈ tc →
     count is_network tc = 0%nat ∧
     run_status (createSecretCmd c) w = 1 ∧
     stdout tc = ["Error loading AWS SDK config: " +:+ Error err]).
Proof.
  intros tu tc. subst tu tc. split_and!.
  1, 2: along (updateSecretCmd_path u w); cbn [described app]; intros;
        repeat match goal with d : option error |- _ => destruct d end;
        cbn in *; in_trace; done.
  all: along (createSecretCmd_path c w); intros; in_trace; done.
Qed.

Lemma secret_commands_fail_before_any_request_witness :
  count is_network
    (run_trace (updateSecretCmd (Sample.db_pass true)) (Probe.start Scenario.unreadable))
    = 0%nat ∧
  count is_network
    (run_trace (updateSecretCmd (Sample.db_pass true)) (Probe.start Scenario.no_credentials))
    = 0%nat ∧
  count is_network
    (run_trace (createSecretCmd Sample.db_pass_create) (Probe.start Scenario.unreadable))
    = 0%nat ∧
  count is_network
    (run_trace (createSecretCmd Sample.db_pass_create) (Probe.start Scenario.no_credentials))
    = 0%nat.
Proof.
  destruct (secret_commands_fail_before_any_request
              (Sample.db_pass true) Sample.db_pass_create
              (Probe.start Scenario.unreadable) (Some "us-east-1")
              (mkError "open notes.txt: permission denied")) as (Hu & _ & Hc & _).
  destruct (secret_commands_fail_before_any_request
              (Sample.db_pass true) Sample.db_pass_create
              (Probe.start Scenario.no_credentials) (Some "us-east-1")
              (mkError "failed to retrieve credentials")) as (_ & Hu' & _ & Hc').
  split; [|split; [|split]].
  - destruct Hu as (_ & ? & _); [sample_event | done].
  - destruct Hu' as (? & _); [sample_event | done].
  - destruct Hc as (_ & ? & _); [sample_event | done].
  - destruct Hc' as (? & _); [sample_event | done].
Defined.




(** X12. When the secret is not found and [--update] was not passed,
    [update-secret] creates it: its one mutating call is [CreateSecret]
    with the name and description of the flags.  If that call fails the
    handler reports the error and the status is 1.  If it succeeds the
    handler dereferences the ARN of the answer: with an ARN it prints it
    and the status is 0; without one the dereference panics, the status
    is 2 and the announcement of the creation is all that was printed. *)
Theorem not_found_without_update_creates `{Platform W}
    (f : UpdateSecretFlags) (w : W) (err : error) :
  let t := run_trace (updateSecretCmd f) w in
  describe_answer t = Some (Some err) →
  Contains (Error err) "ResourceNotFoundException" = true →
  flag_update f = false →
  ∃ value r,
    List.filter is_mutation t =
      [EvCreateSecret (flag_name f) (flag_description f) value r] ∧
    match r with
    | Ok createOutput =>
        match ARN createOutput with
        | Some arn =>
            run_status (updateSecretCmd f) w = 0 ∧
            last (stdout t) = Some ("Successfully created, Secret ARN: " +:+ arn)
        | None =>
            run_status (updateSecretCmd f) w = 2 ∧
            stdout t = ["Secret does not exist. Proceeding with creation..."]
        end
    | Fail e =>
        run_status (updateSecretCmd f) w = 1 ∧
        last (stdout t) = Some ("Error creating secret: " +:+ Error e)
    end.
Proof.
  by_paths f w.
  all: intros; simplify_eq; try congruence.
  all: eexists _, _; split; [reflexivity|]; cbn; auto.
Qed.

Lemma not_found_without_update_creates_witness :
  (∃ value r,
     List.filter is_mutation (run_trace (updateSecretCmd (Sample.db_pass false)) Sample.fresh)
       = [EvCreateSecret "db-pass" "prod db password" value r]) ∧
  run_status (updateSecretCmd (Sample.db_pass false)) (Probe.start Scenario.no_arn) = 2.
Proof.
  split.
  - destruct (not_found_without_update_creates
                (Sample.db_pass false) Sample.fresh Sim.ResourceNotFound)
      as (value & r & Hcall & _); [vm_compute; reflexivity .. |].
    exists value, r. exact Hcall.
  - destruct (not_found_without_update_creates
                (Sample.db_pass false) (Probe.start Scenario.no_arn)
                (mkError "ResourceNotFoundException: no such secret"))
      as (value & r & Hcall & Hend); [vm_compute; reflexivity .. |].
    vm_compute in Hcall. injection Hcall as _ <-. exact (proj1 Hend).
Defined.

(** ** Exit status and output of all four commands *)

Ltac outcome_reported :=
  split_and!;
  [ auto
  | split; intros; first [done | vm_compute; done]
  | intros; first [ done
                  | eexists; split; [reflexivity|];
                    split; intros; first [done | vm_compute; done] ] ].

(** X13. Every run of every handler ends with status 0, 1 or 2 and, but
    for one case, says how it went.  The status is 2 exactly when a
    [CreateSecret] call succeeded without an ARN, where the handler
    panics before it prints its last line.  In every other run at least
    one line is printed, and the last line is a failure line (the usage
    line, or a line that starts with [Error]) exactly when the status is
    1.  [upload] and [download] never end with status 2 and print exactly
    one line; [create-secret] prints one line, or none when it panics;
    [update-secret] prints one or two. *)
Theorem every_run_reports_its_outcome `{Platform W}
    (t : TransferFlags) (u : UpdateSecretFlags) (c : CreateSecretFlags) (w : W) :
  (reports_outcome (uploadCmd t) w ∧
   run_status (uploadCmd t) w ≠ 2 ∧
   length (stdout (run_trace (uploadCmd t) w)) = 1%nat) ∧
  (reports_outcome (downloadCmd t) w ∧
   run_status (downloadCmd t) w ≠ 2 ∧
   length (stdout (run_trace (downloadCmd t) w)) = 1%nat) ∧
  (reports_outcome (createSecretCmd c) w ∧
   length (stdout (run_trace (createSecretCmd c) w))
     = (if bool_decide (run_status (createSecretCmd c) w = 2) then 0%nat else 1%nat)) ∧
  (reports_outcome (updateSecretCmd u) w ∧
   (1 ≤ length (stdout (run_trace (updateSecretCmd u) w)) ≤ 2)%nat).
Proof.
  unfold reports_outcome. split; [|split; [|split]].
  - along (uploadCmd_path t w); intros; (split; [outcome_reported | done]).
  - along (downloadCmd_path t w); intros; (split; [outcome_reported | done]).
  - along (createSecretCmd_path c w); intros; (split; [outcome_reported | done]).
  - along (updateSecretCmd_path u w); cbn [described app]; intros;
      repeat match goal with d : option error |- _ => destruct d end; cbn;
      (split; [outcome_reported | lia]).
Qed.

Lemma every_run_reports_its_outcome_witness :
  run_status (createSecretCmd Sample.db_pass_create) (Probe.start Scenario.no_arn) = 2 ∧
  ∃ line,
    last (stdout (run_trace (updateSecretCmd (Sample.db_pass true)) Sample.stored))
      = Some line ∧
    (run_status (updateSecretCmd (Sample.db_pass true)) Sample.stored = 1 ↔
     is_failure_line line = true).
Proof.
  split.
  - destruct (every_run_reports_its_outcome Sample.notes (Sample.db_pass true)
                Sample.db_pass_create (Probe.start Scenario.no_arn))
      as (_ & _ & [(_ & Hpanic & _) _] & _).
    apply Hpanic. vm_compute. reflexivity.
  - destruct (every_run_reports_its_outcome Sample.notes (Sample.db_pass true)
                Sample.db_pass_create Sample.stored)
      as (_ & _ & _ & [(_ & _ & Hline) _]).
    apply Hline. vm_compute. discriminate.
Defined.

(** ** Contexts, regions and clients *)

(** Run a handler on the probing platform to the end, splitting on every
    answer of the script. *)
Ltac probe :=
  unfold Probe.all_calls_with, Probe.start; unfold_cmd;
  cbn [sys_ReadFile sys_WriteFile sys_LoadDefaultConfig sys_PutObject sys_GetObject
       sys_DescribeSecret sys_UpdateSecret sys_CreateSecret Probe.platform
       Probe.record Probe.script Probe.seen fst snd world trace app];
  repeat (case_match;
          cbn [Probe.record Probe.script Probe.seen fst snd world trace app negb] in *;
          simplify_eq).

(** X14. The secret commands put one deadline on all they ask of AWS.
    The configuration is loaded, and every secrets request is sent, under
    the context made of the background context with the timeout of
    [--timeout]; the configuration is asked for the region of [--region];
    and every request goes through the client made of the configuration
    that was resolved.  Nothing is asked of AWS outside these calls. *)
Theorem secret_commands_call_under_the_deadline
    (s : Probe.Script) (u : UpdateSecretFlags) (c : CreateSecretFlags) :
  let wu := run_world (updateSecretCmd u) (Probe.start s) in
  let wc := run_world (createSecretCmd c) (Probe.start s) in
  Probe.all_calls_with s
    (context_WithTimeout context_Background (flag_timeout u))
    (Some (flag_region u)) (Probe.seen wu) ∧
  length (Probe.seen wu)
    = (length (config_regions (run_trace (updateSecretCmd u) (Probe.start s))) +
       count is_network (run_trace (updateSecretCmd u) (Probe.start s)))%nat ∧
  Probe.all_calls_with s
    (context_WithTimeout context_Background (cflag_timeout c))
    (Some (cflag_region c)) (Probe.seen wc) ∧
  length (Probe.seen wc)
    = (length (config_regions (run_trace (createSecretCmd c) (Probe.start s))) +
       count is_network (run_trace (createSecretCmd c) (Probe.start s)))%nat.
Proof.
  intros wu wc. subst wu wc. destruct s as [rd wr cf pt gt ds up cr].
  split_and!.
  - probe; cbn; repeat constructor; done.
  - probe; reflexivity.
  - probe; cbn; repeat constructor; done.
  - probe; reflexivity.
Qed.

(** X15. The transfer commands set no deadline and name no region: the
    configuration is loaded, and the one request to the object store is
    sent, under the background context; the configuration is asked for no
    particular region; the request goes through the client made of the
    configuration that was resolved. *)
Theorem transfer_commands_call_without_deadline
    (s : Probe.Script) (f : TransferFlags) :
  let wu := run_world (uploadCmd f) (Probe.start s) in
  let wd := run_world (downloadCmd f) (Probe.start s) in
  Probe.all_calls_with s context_Background None (Probe.seen wu) ∧
  length (Probe.seen wu)
    = (length (config_regions (run_trace (uploadCmd f) (Probe.start s))) +
       count is_network (run_trace (uploadCmd f) (Probe.start s)))%nat ∧
  Probe.all_calls_with s context_Background None (Probe.seen wd) ∧
  length (Probe.seen wd)
    = (length (config_regions (run_trace (downloadCmd f) (Probe.start s))) +
       count is_network (run_trace (downloadCmd f) (Probe.start s)))%nat.
Proof.
  intros wu wd. subst wu wd. destruct s as [rd wr cf pt gt ds up cr].
  split_and!.
  - probe; cbn; repeat constructor; done.
  - probe; reflexivity.
  - probe; cbn; repeat constructor; done.
  - probe; reflexivity.
Qed.

(** ** Effects in the simulated cloud *)

(** Run a handler in the simulated cloud to the end, splitting on what the
    world holds. *)
Ltac sim_run :=
  unfold_cmd;
  cbn [sys_ReadFile sys_WriteFile sys_LoadDefaultConfig sys_PutObject sys_GetObject
       sys_DescribeSecret sys_UpdateSecret sys_CreateSecret Sim.platform
       fst snd world trace app];
  unfold Sim.LoadDefaultConfig, Sim.ReadFile, Sim.PutObject, Sim.GetObject,
         Sim.WriteFile, Sim.DescribeSecret, Sim.UpdateSecret, Sim.CreateSecret;
  cbn [fst snd world trace app];
  repeat (case_match; cbn [fst snd world trace app negb exit_status] in *; simplify_eq).

(** X16. In the simulated cloud a run that fails changes nothing: when
    any of the four handlers ends with status 1, the local files, the
    stored objects and the secrets are as they were. *)
Theorem sim_failed_run_changes_nothing
    (t : TransferFlags) (u : UpdateSecretFlags) (c : CreateSecretFlags) (w : Sim.World) :
  (run_status (uploadCmd t) w = 1 → run_world (uploadCmd t) w = w) ∧
  (run_status (downloadCmd t) w = 1 → run_world (downloadCmd t) w = w) ∧
  (run_status (updateSecretCmd u) w = 1 → run_world (updateSecretCmd u) w = w) ∧
  (run_status (createSecretCmd c) w = 1 → run_world (createSecretCmd c) w = w).
Proof.
  split_and!; sim_run; done.
Qed.

Lemma sim_failed_run_changes_nothing_witness :
  run_world (uploadCmd Sample.notes) Sample.cloud = Sample.cloud ∧
  run_world (downloadCmd Sample.notes) Sample.laptop = Sample.laptop ∧
  run_world (updateSecretCmd (Sample.db_pass true)) Sample.fresh = Sample.fresh ∧
  run_world (createSecretCmd Sample.db_pass_create) Sample.stored = Sample.stored.
Proof.
  split; [|split; [|split]].
  - apply (sim_failed_run_changes_nothing Sample.notes (Sample.db_pass true)
             Sample.db_pass_create Sample.cloud). vm_compute. reflexivity.
  - apply (sim_failed_run_changes_nothing Sample.notes (Sample.db_pass true)
             Sample.db_pass_create Sample.laptop). vm_compute. reflexivity.
  - apply (sim_failed_run_changes_nothing Sample.notes (Sample.db_pass true)
             Sample.db_pass_create Sample.fresh). vm_compute. reflexivity.
  - apply (sim_failed_run_changes_nothing Sample.notes (Sample.db_pass true)
             Sample.db_pass_create Sample.stored). vm_compute. reflexivity.
Defined.

(** [upload] and [download] in the simulated cloud when nothing stands in
    their way. *)
Lemma sim_upload_world (f : TransferFlags) (contents : bytes) (w : Sim.World) :
  transfer_flag_missing (flag_bucket f) (flag_file f) = false →
  Sim.outage w = None →
  Sim.fs w !! flag_file f = Some contents →
  run_status (uploadCmd f) w = 0 ∧
  run_world (uploadCmd f) w =
    Sim.set_s3 w (<[(flag_bucket f, object_key f) := contents]> (Sim.s3 w)).
Proof.
  intros Hflags Houtage Hfile.
  pose proof (sim_upload f contents w Hfile) as Hup. cbv zeta in Hup.
  unfold transfer_flag_missing in Hflags. rewrite Hflags, Houtage in Hup.
  by destruct Hup as (? & ? & _).
Qed.

Lemma sim_download_world (f : TransferFlags) (data : bytes) (w : Sim.World) :
  transfer_flag_missing (flag_bucket f) (flag_file f) = false →
  Sim.outage w = None →
  Sim.s3 w !! (flag_bucket f, object_key f) = Some data →
  run_status (downloadCmd f) w = 0 ∧
  run_world (downloadCmd f) w = Sim.set_fs w (<[flag_file f := data]> (Sim.fs w)).
Proof.
  intros Hflags Houtage Hobject.
  pose proof (sim_download f w) as Hdown. cbv zeta in Hdown.
  unfold transfer_flag_missing in Hflags. unfold object_key in Hobject.
  rewrite Hflags, Houtage, Hobject in Hdown.
  by destruct Hdown as (? & ? & _).
Qed.

Lemma transfer_flags_present (bucket file : string) :
  bucket ≠ "" → file ≠ "" → transfer_flag_missing bucket file = false.
Proof.
  intros Hbucket Hfile. unfold transfer_flag_missing.
  apply orb_false_iff. by rewrite !String.eqb_neq.
Qed.


(** X17. In the simulated cloud a [download] that finds its object
    overwrites the file at the path of [--file], whatever it held, with
    the bytes of the object, and touches nothing else: every other file,
    every stored object and every secret is as it was. *)
Theorem sim_download_overwrites_only_its_file
    (f : TransferFlags) (data : bytes) (w : Sim.World) :
  let w' := run_world (downloadCmd f) w in
  transfer_flag_missing (flag_bucket f) (flag_file f) = false →
  Sim.outage w = None →
  Sim.s3 w !! (flag_bucket f, object_key f) = Some data →
  run_status (downloadCmd f) w = 0 ∧
  Sim.fs w' !! flag_file f = Some data ∧
  (∀ other, other ≠ flag_file f → Sim.fs w' !! other = Sim.fs w !! other) ∧
  Sim.s3 w' = Sim.s3 w ∧ Sim.secrets w' = Sim.secrets w.
Proof.
  intros w' Hflags Houtage Hobject. subst w'.
  destruct (sim_download_world f data w Hflags Houtage Hobject) as [Hstatus ->].
  cbn. split_and!; [done | apply lookup_insert_eq | | done | done].
  intros other Hother. by apply lookup_insert_ne.
Qed.

Lemma sim_download_overwrites_only_its_file_witness :
  Sim.fs (run_world (downloadCmd Sample.notes) Scenario.stale) !! "notes.txt"
    = Some Sample.note ∧
  Sim.fs (run_world (downloadCmd Sample.notes) Scenario.stale) !! "todo.txt"
    = Sim.fs Scenario.stale !! "todo.txt".
Proof.
  destruct (sim_download_overwrites_only_its_file Sample.notes Sample.note Scenario.stale)
    as (_ & Hfile & Hothers & _); [vm_compute; reflexivity .. |].
  split; [exact Hfile | apply Hothers; discriminate].
Defined.

(** X18. In the simulated cloud an [upload] of a file that is there
    stores its bytes under the key of the flags, replacing what was
    stored there, and touches nothing else: the local files, the secrets
    and every other object are as they were.  Uploading the same file
    again changes nothing. *)
Theorem sim_upload_stores_only_its_object
    (f : TransferFlags) (contents : bytes) (w : Sim.World) :
  let w' := run_world (uploadCmd f) w in
  transfer_flag_missing (flag_bucket f) (flag_file f) = false →
  Sim.outage w = None →
  Sim.fs w !! flag_file f = Some contents →
  run_status (uploadCmd f) w = 0 ∧
  Sim.s3 w' !! (flag_bucket f, object_key f) = Some contents ∧
  (∀ other, other ≠ (flag_bucket f, object_key f) →
            Sim.s3 w' !! other = Sim.s3 w !! other) ∧
  Sim.fs w' = Sim.fs w ∧ Sim.secrets w' = Sim.secrets w ∧
  run_world (uploadCmd f) w' = w'.
Proof.
  intros w' Hflags Houtage Hfile.
  destruct (sim_upload_world f contents w Hflags Houtage Hfile) as [Hstatus Hworld].
  subst w'. rewrite Hworld.
  split_and!; [done | apply lookup_insert_eq | | done | done |].
  - intros other Hother. cbn. by apply lookup_insert_ne.
  - destruct (sim_upload_world f contents
                (Sim.set_s3 w (<[(flag_bucket f, object_key f) := contents]> (Sim.s3 w))))
      as [_ ->]; [done | done | done |].
    unfold Sim.set_s3. cbn. by rewrite insert_insert_eq.
Qed.

Lemma sim_upload_stores_only_its_object_witness :
  Sim.s3 (run_world (uploadCmd Sample.notes) Sample.laptop) !! ("backups", "docs/notes.txt")
    = Some Sample.note ∧
  run_world (uploadCmd Sample.notes) (run_world (uploadCmd Sample.notes) Sample.laptop)
    = run_world (uploadCmd Sample.notes) Sample.laptop.
Proof.
  destruct (sim_upload_stores_only_its_object Sample.notes Sample.note Sample.laptop)
    as (_ & Hstored & _ & _ & _ & Hagain); [vm_compute; reflexivity .. |].
  split; [exact Hstored | exact Hagain].
Defined.

(** X19. What [update-secret] does to the secrets of the simulated cloud,
    once its flags are present, its file is there and the service
    answers.  A missing secret without [--update] is created and an
    existing one with [--update] is replaced, both with the description
    of the flags and the contents of the file; an existing secret without
    [--update] is left alone, with status 0; a missing secret with
    [--update] is not created and the status is 1. *)
Theorem sim_update_secret_effect
    (f : UpdateSecretFlags) (data : bytes) (w : Sim.World) :
  let stored :=
    Sim.set_secrets w (<[flag_name f := (flag_description f, string_of_bytes data)]>
                         (Sim.secrets w)) in
  secret_flag_missing (flag_name f) (flag_region f)
                      (flag_description f) (flag_json_file f) = false →
  Sim.fs w !! flag_json_file f = Some data →
  Sim.outage w = None →
  (run_status (updateSecretCmd f) w, run_world (updateSecretCmd f) w) =
    match Sim.secrets w !! flag_name f, flag_update f with
    | None, false => (0, stored)
    | Some _, true => (0, stored)
    | Some _, false => (0, w)
    | None, true => (1, w)
    end.
Proof.
  intros stored Hflags Hfile Houtage. subst stored.
  unfold secret_flag_missing in Hflags.
  unfold_cmd.
  cbn [sys_ReadFile sys_LoadDefaultConfig sys_DescribeSecret sys_UpdateSecret
       sys_CreateSecret Sim.platform fst snd world trace app].
  unfold Sim.LoadDefaultConfig, Sim.ReadFile, Sim.DescribeSecret, Sim.UpdateSecret,
         Sim.CreateSecret.
  rewrite Hflags. cbn [fst snd world trace app].
  rewrite Hfile. cbn [fst snd world trace app].
  rewrite Houtage.
  assert (Hmarker : Contains (Error Sim.ResourceNotFound) "ResourceNotFoundException" = true)
    by (vm_compute; reflexivity).
  destruct (Sim.secrets w !! flag_name f) as [old|] eqn:Hsecret;
    destruct (flag_update f);
    cbn [fst snd world trace app negb exit_status];
    rewrite ?Hmarker; cbn [fst snd world trace app negb exit_status];
    rewrite ?Houtage, ?Hsecret; reflexivity.
Qed.

Lemma sim_update_secret_effect_witness :
  Sim.secrets (run_world (updateSecretCmd (Sample.db_pass true)) Sample.stored) !! "db-pass"
    = Some ("prod db password", string_of_bytes Sample.secret_json).
Proof.
  pose proof (sim_update_secret_effect (Sample.db_pass true) Sample.secret_json Sample.stored)
    as Heffect.
  cbv zeta in Heffect.
  specialize (Heffect eq_refl eq_refl eq_refl).
  apply (f_equal snd) in Heffect. cbn [snd] in Heffect.
  rewrite Heffect. vm_compute. reflexivity.
Defined.

(** X20. What [create-secret] does to the secrets of the simulated cloud,
    once its flags are present, its file is there and the service
    answers.  A missing secret is created with the description of the
    flags and the contents of the file, and the ARN for the region of
    [--region] is printed; an existing secret is left as it is and the
    status is 1. *)
Theorem sim_create_secret_effect
    (f : CreateSecretFlags) (data : bytes) (w : Sim.World) :
  let stored :=
    Sim.set_secrets w (<[cflag_name f := (cflag_description f, string_of_bytes data)]>
                         (Sim.secrets w)) in
  secret_flag_missing (cflag_name f) (cflag_region f)
                      (cflag_description f) (cflag_json_file f) = false →
  Sim.fs w !! cflag_json_file f = Some data →
  Sim.outage w = None →
  (run_status (createSecretCmd f) w, run_world (createSecretCmd f) w,
   last (stdout (run_trace (createSecretCmd f) w))) =
    match Sim.secrets w !! cflag_name f with
    | None =>
        (0, stored,
         Some ("Successfully created, Secret ARN: " +:+
               Sim.arn_of (cflag_region f) (cflag_name f)))
    | Some _ =>
        (1, w, Some ("Error creating secret: " +:+ Error Sim.ResourceExists))
    end.
Proof.
  intros stored Hflags Hfile Houtage. subst stored.
  unfold secret_flag_missing in Hflags.
  unfold_cmd.
  cbn [sys_ReadFile sys_LoadDefaultConfig sys_CreateSecret Sim.platform
       fst snd world trace app].
  unfold Sim.LoadDefaultConfig, Sim.ReadFile, Sim.CreateSecret.
  rewrite Hflags. cbn [fst snd world trace app].
  rewrite Hfile. cbn [fst snd world trace app].
  rewrite Houtage.
  destruct (Sim.secrets w !! cflag_name f) as [old|] eqn:Hsecret;
    cbn [fst snd world trace app exit_status]; reflexivity.
Qed.

Lemma sim_create_secret_effect_witness :
  run_world (createSecretCmd Sample.db_pass_create) Sample.stored = Sample.stored ∧
  Sim.secrets (run_world (createSecretCmd Sample.db_pass_create) Sample.fresh) !! "db-pass"
    = Some ("prod db password", string_of_bytes Sample.secret_json).
Proof.
  pose proof (sim_create_secret_effect Sample.db_pass_create Sample.secret_json Sample.stored)
    as Hstored.
  pose proof (sim_create_secret_effect Sample.db_pass_create Sample.secret_json Sample.fresh)
    as Hfresh.
  cbv zeta in Hstored, Hfresh.
  specialize (Hstored eq_refl eq_refl eq_refl).
  specialize (Hfresh eq_refl eq_refl eq_refl).
  split.
  - apply (f_equal (λ r, r.1.2)) in Hstored. cbn [fst snd] in Hstored.
    rewrite Hstored. vm_compute. reflexivity.
  - apply (f_equal (λ r, r.1.2)) in Hfresh. cbn [fst snd] in Hfresh.
    rewrite Hfresh. vm_compute. reflexivity.
Defined.

(** The two secret commands in the simulated cloud, on a missing and on a
    stored secret. *)
Lemma sim_create_fresh (c : CreateSecretFlags) (data : bytes) (w : Sim.World) :
  secret_flag_missing (cflag_name c) (cflag_region c)
                      (cflag_description c) (cflag_json_file c) = false →
  Sim.fs w !! cflag_json_file c = Some data →
  Sim.outage w = None →
  Sim.secrets w !! cflag_name c = None →
  run_status (createSecretCmd c) w = 0 ∧
  run_world (createSecretCmd c) w =
    Sim.set_secrets w (<[cflag_name c := (cflag_description c, string_of_bytes data)]>
                         (Sim.secrets w)).
Proof.
  intros Hflags Hfile Houtage Hfresh. unfold secret_flag_missing in Hflags.
  unfold_cmd.
  cbn [sys_ReadFile sys_LoadDefaultConfig sys_CreateSecret Sim.platform
       fst snd world trace app].
  unfold Sim.LoadDefaultConfig, Sim.ReadFile, Sim.CreateSecret.
  rewrite Hflags. cbn [fst snd world trace app].
  rewrite Hfile. cbn [fst snd world trace app].
  by rewrite Houtage, Hfresh.
Qed.

Lemma sim_update_stored (u : UpdateSecretFlags) (data : bytes) (w : Sim.World)
    (old : string * string) :
  secret_flag_missing (flag_name u) (flag_region u)
                      (flag_description u) (flag_json_file u) = false →
  Sim.fs w !! flag_json_file u = Some data →
  Sim.outage w = None →
  Sim.secrets w !! flag_name u = Some old →
  run_status (updateSecretCmd u) w = 0 ∧
  run_world (updateSecretCmd u) w =
    if flag_update u
    then Sim.set_secrets w (<[flag_name u := (flag_description u, string_of_bytes data)]>
                              (Sim.secrets w))
    else w.
Proof.
  intros Hflags Hfile Houtage Hstored. unfold secret_flag_missing in Hflags.
  unfold_cmd.
  cbn [sys_ReadFile sys_LoadDefaultConfig sys_DescribeSecret sys_UpdateSecret
       sys_CreateSecret Sim.platform fst snd world trace app].
  unfold Sim.LoadDefaultConfig, Sim.ReadFile, Sim.DescribeSecret, Sim.UpdateSecret,
         Sim.CreateSecret.
  rewrite Hflags. cbn [fst snd world trace app].
  rewrite Hfile. cbn [fst snd world trace app].
  rewrite Houtage, Hstored.
  destruct (flag_update u); cbn [fst snd world trace app negb exit_status];
    rewrite ?Houtage, ?Hstored; done.
Qed.

(** X21. Creating and then updating in the simulated cloud.  After
    [create-secret] has created a secret, an [update-secret] for the same
    name succeeds; with [--update] the secret ends up with the description
    and file contents of the second command, without it the secret keeps
    what the first command stored. *)
Theorem sim_create_then_update
    (c : CreateSecretFlags) (u : UpdateSecretFlags) (first second : bytes)
    (w : Sim.World) :
  let w1 := run_world (createSecretCmd c) w in
  let w2 := run_world (updateSecretCmd u) w1 in
  secret_flag_missing (cflag_name c) (cflag_region c)
                      (cflag_description c) (cflag_json_file c) = false →
  secret_flag_missing (flag_name u) (flag_region u)
                      (flag_description u) (flag_json_file u) = false →
  flag_name u = cflag_name c →
  Sim.fs w !! cflag_json_file c = Some first →
  Sim.fs w !! flag_json_file u = Some second →
  Sim.outage w = None →
  Sim.secrets w !! cflag_name c = None →
  run_status (createSecretCmd c) w = 0 ∧
  run_status (updateSecretCmd u) w1 = 0 ∧
  Sim.secrets w2 !! cflag_name c =
    Some (if flag_update u
          then (flag_description u, string_of_bytes second)
          else (cflag_description c, string_of_bytes first)).
Proof.
  intros w1 w2 Hc Hu Hname Hfirst Hsecond Houtage Hfresh.
  destruct (sim_create_fresh c first w Hc Hfirst Houtage Hfresh) as [Hstatus Hw1].
  fold w1 in Hw1.
  assert (Hstored : Sim.secrets w1 !! flag_name u
                    = Some (cflag_description c, string_of_bytes first)).
  { rewrite Hw1, Hname. cbn. apply lookup_insert_eq. }
  assert (Hfile : Sim.fs w1 !! flag_json_file u = Some second) by (by rewrite Hw1).
  assert (Hreach : Sim.outage w1 = None) by (by rewrite Hw1).
  destruct (sim_update_stored u second w1 _ Hu Hfile Hreach Hstored) as [Hstatus2 Hw2].
  fold w2 in Hw2. split_and!; [done | done |].
  rewrite Hw2. destruct (flag_update u).
  - rewrite <- Hname. cbn. apply lookup_insert_eq.
  - by rewrite <- Hname.
Qed.

Lemma sim_create_then_update_witness :
  Sim.secrets
    (run_world (updateSecretCmd (Sample.db_pass false))
       (run_world (createSecretCmd Sample.db_pass_create) Sample.fresh)) !! "db-pass"
    = Some ("prod db password", string_of_bytes Sample.secret_json).
Proof.
  destruct (sim_create_then_update Sample.db_pass_create (Sample.db_pass false)
              Sample.secret_json Sample.secret_json Sample.fresh)
    as (_ & _ & Hkept); [vm_compute; reflexivity .. |].
  exact Hkept.
Defined.

(** ** Object keys of different flags *)

Lemma append_assoc (a b c : string) : (a +:+ b) +:+ c = a +:+ b +:+ c.
Proof.
  induction a as [|x a IH]; [reflexivity|].
  by rewrite !append_cons_l, IH.
Qed.

(** X22. Within one bucket and subdirectory, files at different paths
    have different keys, so in the simulated cloud two uploads that
    differ in [--file] only do not overwrite each other: after both, each
    object holds the bytes of its own file. *)
Theorem sim_uploads_of_distinct_files_coexist
    (bucket subdirectory file1 file2 : string) (bytes1 bytes2 : bytes) (w : Sim.World) :
  let f1 := mkTransferFlags bucket file1 subdirectory in
  let f2 := mkTransferFlags bucket file2 subdirectory in
  let w' := run_world (uploadCmd f2) (run_world (uploadCmd f1) w) in
  bucket ≠ "" → file1 ≠ "" → file2 ≠ "" → file1 ≠ file2 →
  Sim.outage w = None →
  Sim.fs w !! file1 = Some bytes1 →
  Sim.fs w !! file2 = Some bytes2 →
  object_key f1 ≠ object_key f2 ∧
  Sim.s3 w' !! (bucket, object_key f1) = Some bytes1 ∧
  Sim.s3 w' !! (bucket, object_key f2) = Some bytes2.
Proof.
  intros f1 f2 w' Hbucket Hfile1 Hfile2 Hdistinct Houtage Hbytes1 Hbytes2.
  assert (Hkeys : object_key f1 ≠ object_key f2).
  { unfold object_key, f1, f2. cbn. intros Heq.
    apply (inj (String.append subdirectory)) in Heq.
    apply (inj (String.append "/")) in Heq. done. }
  destruct (sim_upload_world f1 bytes1 w) as [_ Hw1];
    [by apply transfer_flags_present | done | done |].
  destruct (sim_upload_world f2 bytes2 (run_world (uploadCmd f1) w)) as [_ Hw2];
    [by apply transfer_flags_present | by rewrite Hw1 | by rewrite Hw1 |].
  fold w' in Hw2. rewrite Hw2, Hw1. cbn.
  split_and!; [done | | apply lookup_insert_eq].
  rewrite lookup_insert_ne; [apply lookup_insert_eq|].
  intros Heq. injection Heq as Heq. by apply Hkeys.
Qed.

Lemma sim_uploads_of_distinct_files_coexist_witness :
  Sim.s3 (run_world (uploadCmd (mkTransferFlags "backups" "todo.txt" "docs"))
            (run_world (uploadCmd (mkTransferFlags "backups" "notes.txt" "docs"))
               Scenario.stale))
    !! ("backups", "docs/notes.txt") = Some (bytes_of_string "old").
Proof.
  destruct (sim_uploads_of_distinct_files_coexist "backups" "docs" "notes.txt" "todo.txt"
              (bytes_of_string "old") (bytes_of_string "later") Scenario.stale)
    as (_ & Hfirst & _); [discriminate .. | reflexivity | | |].
  - vm_compute. reflexivity.
  - vm_compute. reflexivity.
  - exact Hfirst.
Defined.

(** X23. The key does not keep the subdirectory apart from the file path:
    a file at [x/y] under subdirectory [s] and a file at [y] under
    subdirectory [s/x] have the same key.  So in the simulated cloud,
    what [upload] stored for the first, [download] delivers for the
    second, into the local path [y]. *)
Theorem sim_key_joins_subdirectory_and_path
    (bucket s x y : string) (contents : bytes) (w : Sim.World) :
  let stored := mkTransferFlags bucket (x +:+ "/" +:+ y) s in
  let fetched := mkTransferFlags bucket y (s +:+ "/" +:+ x) in
  let w' := run_world (downloadCmd fetched) (run_world (uploadCmd stored) w) in
  bucket ≠ "" → y ≠ "" →
  Sim.outage w = None →
  Sim.fs w !! (x +:+ "/" +:+ y) = Some contents →
  object_key stored = object_key fetched ∧
  run_status (downloadCmd fetched) (run_world (uploadCmd stored) w) = 0 ∧
  Sim.fs w' !! y = Some contents.
Proof.
  intros stored fetched w' Hbucket Hy Houtage Hfile.
  assert (Hkey : object_key stored = object_key fetched).
  { unfold object_key, stored, fetched. cbn. by rewrite !append_assoc. }
  assert (Hpath : x +:+ "/" +:+ y ≠ "") by (destruct x; discriminate).
  destruct (sim_upload_world stored contents w) as [_ Hw1];
    [by apply transfer_flags_present | done | done |].
  destruct (sim_download_world fetched contents (run_world (uploadCmd stored) w))
    as [Hstatus Hw2].
  - by apply transfer_flags_present.
  - by rewrite Hw1.
  - rewrite Hw1, <- Hkey. cbn. apply lookup_insert_eq.
  - fold w' in Hw2. split_and!; [done | done |].
    rewrite Hw2. cbn. apply lookup_insert_eq.
Qed.

Lemma sim_key_joins_subdirectory_and_path_witness :
  Sim.fs (run_world (downloadCmd (mkTransferFlags "backups" "notes.txt" "docs/2024"))
            (run_world (uploadCmd (mkTransferFlags "backups" "2024/notes.txt" "docs"))
               Scenario.archive))
    !! "notes.txt" = Some Sample.note.
Proof.
  destruct (sim_key_joins_subdirectory_and_path "backups" "docs" "2024" "notes.txt"
              Sample.note Scenario.archive)
    as (_ & _ & Hback); [discriminate | discriminate | reflexivity | | exact Hback].
  vm_compute. reflexivity.
Defined.
